(** * ci/generate_azure_pipelines_matrices.py — a shallow embedding

    The script builds the Azure Pipelines job matrix of aqtinstall: a catalog
    of [BuildJob] records is crossed with the supported Python versions, each
    pair is turned into a key and an ordered mapping of string variables, and
    the per-platform mapping is printed as JSON behind a [##vso] marker.

    Python values are modelled as follows.
    - [str] is [string]; a character is a code point below 256, the range in
      which the regular-expression class [\d] is exactly [0-9].
    - [Optional[str]] is [option string]; truthiness is written out.
    - a [dict] that is only read with [.get] is a [gmap string string];
      a [collections.OrderedDict] (and the insertion-ordered [dict] given to
      [json.dumps]) is an association list kept in insertion order.
    - an exception is the [Raise] branch of [result].
    - [secrets.choice] reads the operating system's entropy, modelled as an
      infinite sequence of draws carried, with standard output, by [World]. *)

From Stdlib Require Import Ascii String.
From stdpp Require Import base strings gmap list.

Open Scope string_scope.

(** ** Python runtime *)

Module Py.

Inductive exn : Type :=
| TypeError
| IndexError
| KeyError.

Inductive result (A : Type) : Type :=
| Ok (a : A)
| Raise (e : exn).
Arguments Ok {A} a.
Arguments Raise {A} e.

Definition bind {A B} (r : result A) (k : A -> result B) : result B :=
  match r with
  | Ok a => k a
  | Raise e => Raise e
  end.

(** [bool(s)] for a [str]. *)
Definition str_truthy (s : string) : bool :=
  match s with
  | EmptyString => false
  | String _ _ => true
  end.

(** [bool(x)] for an [Optional[str]]. *)
Definition truthy (o : option string) : bool :=
  match o with
  | Some s => str_truthy s
  | None => false
  end.

(** [x if x else d], and [x or d], for an [Optional[str]] [x]. *)
Definition or_else (o : option string) (d : string) : string :=
  match o with
  | Some s => if str_truthy s then s else d
  | None => d
  end.

(** [str(b)] for a [bool]. *)
Definition str_of_bool (b : bool) : string :=
  if b then "True" else "False".

(** [s.split(sep)] for a separator of one character. *)
Fixpoint str_split (sep : ascii) (s : string) : list string :=
  match s with
  | EmptyString => [EmptyString]
  | String c s' =>
      if Ascii.eqb c sep then EmptyString :: str_split sep s'
      else match str_split sep s' with
           | h :: t => String c h :: t
           | [] => [String c EmptyString]
           end
  end.

(** [sep.join(parts)]. *)
Fixpoint str_join (sep : string) (parts : list string) : string :=
  match parts with
  | [] => ""
  | [p] => p
  | p :: ps => p +:+ sep +:+ str_join sep ps
  end.

(** [l[i]] on a list. *)
Definition getitem {A} (l : list A) (i : nat) : result A :=
  match l !! i with
  | Some x => Ok x
  | None => Raise IndexError
  end.

(** [d.get(k, default)]. *)
Definition dict_get (d : gmap string string) (k : string) (dflt : string) : string :=
  default dflt (d !! k).

(** [d[k]] on a dict. *)
Definition dict_getitem {V} (d : gmap string V) (k : string) : result V :=
  match d !! k with
  | Some v => Ok v
  | None => Raise KeyError
  end.

(** [itertools.product(xs, ys)]: the rightmost iterable advances fastest. *)
Definition product {A B} (xs : list A) (ys : list B) : list (A * B) :=
  flat_map (fun x => map (fun y => (x, y)) ys) xs.

End Py.

(** [result] with stdpp's monad notation: [x ← c; k]. *)
#[global] Instance result_ret : MRet Py.result := @Py.Ok.
#[global] Instance result_bind : MBind Py.result := fun A B k r => Py.bind r k.

(** ** collections.OrderedDict *)

Module OrderedDict.

Definition t (V : Type) : Type := list (string * V).

Definition empty {V} : t V := [].

(** [d[k] = v]: an existing key keeps its position and takes the new value,
    a new key goes to the end. *)
Fixpoint setitem {V} (d : t V) (k : string) (v : V) : t V :=
  match d with
  | [] => [(k, v)]
  | (k', v') :: d' =>
      if String.eqb k' k then (k', v) :: d'
      else (k', v') :: setitem d' k v
  end.

Fixpoint get {V} (d : t V) (k : string) : option V :=
  match d with
  | [] => None
  | (k', v') :: d' => if String.eqb k' k then Some v' else get d' k
  end.

(** [OrderedDict(pairs)]. *)
Definition of_pairs {V} (pairs : list (string * V)) : t V :=
  fold_left (fun d kv => setitem d (fst kv) (snd kv)) pairs empty.

Definition keys {V} (d : t V) : list string := map fst d.

End OrderedDict.

(** ** The part of [re] that the script uses *)

Module Re.

(** A pattern is a sequence of items; [Digits1] is [\d+], [GroupOpen g] and
    [GroupClose g] are the parentheses of capturing group [g]. *)
Inductive item : Type :=
| Bol
| Eol
| Lit (s : string)
| Digits1
| GroupOpen (g : nat)
| GroupClose (g : nat).

(** A matcher state: the text consumed so far, the start offsets of the
    groups that were opened and the text of the groups that were closed. *)
Record mstate : Type := MState {
  consumed : string;
  opened : list (nat * nat);
  groups : list (nat * string)
}.

(** The class [\d] on the characters of this development, the code points
    below 256: there it is exactly [0] to [9].  On a [str], Python's [\d]
    also matches the decimal digits of other scripts, all of them code
    points of 256 and above, which a [string] here cannot hold; what is
    proved about the pattern is proved for texts of code points below
    256. *)
Definition is_digit (c : ascii) : bool :=
  let n := nat_of_ascii c in Nat.leb 48 n && Nat.leb n 57.

Fixpoint strip_prefix (p s : string) : option string :=
  match p with
  | EmptyString => Some s
  | String a p' =>
      match s with
      | String b s' => if Ascii.eqb a b then strip_prefix p' s' else None
      | EmptyString => None
      end
  end.

Fixpoint drop (n : nat) (s : string) : string :=
  match n with
  | O => s
  | S n' => match s with
            | String _ s' => drop n' s'
            | EmptyString => EmptyString
            end
  end.

Fixpoint assoc {V} (g : nat) (l : list (nat * V)) : option V :=
  match l with
  | [] => None
  | (g', v) :: l' => if Nat.eqb g' g then Some v else assoc g l'
  end.

(** [$] without [re.MULTILINE]: the end of the text, or just before a
    newline that is the last character of the text. *)
Definition at_end (rest : string) : bool :=
  match rest with
  | EmptyString => true
  | String c EmptyString => Ascii.eqb c "010"%char
  | _ => false
  end.

Definition advance (l : string) (st : mstate) : mstate :=
  MState (consumed st +:+ l) (opened st) (groups st).

Definition open_group (g : nat) (st : mstate) : mstate :=
  MState (consumed st) ((g, String.length (consumed st)) :: opened st) (groups st).

Definition close_group (g : nat) (st : mstate) : mstate :=
  match assoc g (opened st) with
  | Some start =>
      MState (consumed st) (opened st) ((g, drop start (consumed st)) :: groups st)
  | None => st
  end.

(** [\d+] followed by the rest of the pattern [k]: greedy, giving back one
    digit at a time when [k] fails. *)
Fixpoint digits1 (k : mstate -> string -> option mstate)
    (st : mstate) (rest : string) {struct rest} : option mstate :=
  match rest with
  | EmptyString => None
  | String c rest' =>
      if is_digit c then
        let st' := advance (String c EmptyString) st in
        match digits1 k st' rest' with
        | Some r => Some r
        | None => k st' rest'
        end
      else None
  end.

Fixpoint run (items : list item) (st : mstate) (rest : string)
    {struct items} : option mstate :=
  match items with
  | [] => Some st
  | Bol :: r =>
      match consumed st with
      | EmptyString => run r st rest
      | String _ _ => None
      end
  | Eol :: r => if at_end rest then run r st rest else None
  | Lit l :: r =>
      match strip_prefix l rest with
      | Some rest' => run r (advance l st) rest'
      | None => None
      end
  | Digits1 :: r => digits1 (run r) st rest
  | GroupOpen g :: r => run r (open_group g st) rest
  | GroupClose g :: r => run r (close_group g st) rest
  end.

(** [re.match(pattern, s)]: the match is anchored at the start of [s]; the
    result is the match object, or [None]. *)
Definition match_ (pattern : list item) (s : string) : option mstate :=
  run pattern (MState EmptyString [] []) s.

(** [m[g]] for the result [m] of [re.match] and a group [g] of the
    pattern: subscripting [None] raises [TypeError]. *)
Definition subscript (m : option mstate) (g : nat) : Py.result string :=
  match m with
  | None => Py.Raise Py.TypeError
  | Some st =>
      match assoc g (groups st) with
      | Some text => Py.Ok text
      | None => Py.Raise Py.IndexError
      end
  end.

End Re.

(** ** The part of [json] that the script uses *)

Module Json.

(** The values given to [json.dumps]: strings, and insertion-ordered
    dictionaries with string keys. *)
#[warnings="-register-all"]
Inductive value : Type :=
| JString (s : string)
| JObject (members : list (string * value)).

Definition hex_digit (n : nat) : ascii :=
  match n with
  | 0 => "0" | 1 => "1" | 2 => "2" | 3 => "3" | 4 => "4"
  | 5 => "5" | 6 => "6" | 7 => "7" | 8 => "8" | 9 => "9"
  | 10 => "a" | 11 => "b" | 12 => "c" | 13 => "d" | 14 => "e"
  | _ => "f"
  end%char.

(** ['\\u{0:04x}'.format(n)] for a code point below 256. *)
Definition u_escape (n : nat) : string :=
  "\u00" +:+ String (hex_digit (n / 16)) (String (hex_digit (n mod 16)) "").

(** The replacement of one character by [encode_basestring_ascii]: the
    characters from the space to the tilde stand for themselves, except the
    quote and the backslash; the others are escaped.  The characters here
    are the code points below 256, written as [\u00XX]; Python writes the
    code points up to 65535 as [\uXXXX] and the higher ones as a pair of
    surrogates, which a [string] here cannot hold. *)
Definition escape_char (c : ascii) : string :=
  let n := nat_of_ascii c in
  if Nat.eqb n 92 then "\\"
  else if Nat.eqb n 34 then String "\"%char (String (ascii_of_nat 34) "")
  else if Nat.eqb n 8 then "\b"
  else if Nat.eqb n 12 then "\f"
  else if Nat.eqb n 10 then "\n"
  else if Nat.eqb n 13 then "\r"
  else if Nat.eqb n 9 then "\t"
  else if Nat.leb 32 n && Nat.leb n 126 then String c ""
  else u_escape n.

Fixpoint escape (s : string) : string :=
  match s with
  | EmptyString => ""
  | String c s' => escape_char c +:+ escape s'
  end.

Definition quote : string := String (ascii_of_nat 34) "".

Definition encode_basestring_ascii (s : string) : string :=
  quote +:+ escape s +:+ quote.

(** [json.dumps(v)] with the default separators [", "] and [": "]. *)
Fixpoint dumps (v : value) : string :=
  match v with
  | JString s => encode_basestring_ascii s
  | JObject members =>
      "{" +:+
      Py.str_join ", "
        (map (fun '(k, x) => encode_basestring_ascii k +:+ ": " +:+ dumps x) members)
      +:+ "}"
  end.

Definition of_variables (d : OrderedDict.t string) : value :=
  JObject (map (fun '(k, s) => (k, JString s)) d).

Definition of_matrix (d : OrderedDict.t (OrderedDict.t string)) : value :=
  JObject (map (fun '(k, vars) => (k, of_variables vars)) d).

End Json.

(** ** class BuildJob *)

(** The keyword arguments of [BuildJob.__init__]. *)
Record Kwargs : Type := {
  kw_module : option string;
  kw_mirror : option string;
  kw_subarchives : option string;
  kw_output_dir : option string;
  kw_list_options : option (gmap string string);
  kw_spec : option string;
  kw_mingw_variant : string;
  kw_is_autodesktop : bool;
  kw_tool_options : option (gmap string string);
  kw_check_output_cmd : option string;
  kw_emsdk_version : string;
  kw_autodesk_arch_folder : option string
}.

(** The defaults of the keyword arguments. *)
Definition defaults : Kwargs := {|
  kw_module := None;
  kw_mirror := None;
  kw_subarchives := None;
  kw_output_dir := None;
  kw_list_options := None;
  kw_spec := None;
  kw_mingw_variant := "";
  kw_is_autodesktop := false;
  kw_tool_options := None;
  kw_check_output_cmd := None;
  kw_emsdk_version := "sdk-fastcomp-1.38.27-64bit@3.1.29";
  kw_autodesk_arch_folder := None
|}.

Definition with_mirror (m : string) (kw : Kwargs) : Kwargs :=
  {| kw_module := kw_module kw; kw_mirror := Some m;
     kw_subarchives := kw_subarchives kw; kw_output_dir := kw_output_dir kw;
     kw_list_options := kw_list_options kw; kw_spec := kw_spec kw;
     kw_mingw_variant := kw_mingw_variant kw;
     kw_is_autodesktop := kw_is_autodesktop kw;
     kw_tool_options := kw_tool_options kw;
     kw_check_output_cmd := kw_check_output_cmd kw;
     kw_emsdk_version := kw_emsdk_version kw;
     kw_autodesk_arch_folder := kw_autodesk_arch_folder kw |}.

Definition with_subarchives (a : string) (kw : Kwargs) : Kwargs :=
  {| kw_module := kw_module kw; kw_mirror := kw_mirror kw;
     kw_subarchives := Some a; kw_output_dir := kw_output_dir kw;
     kw_list_options := kw_list_options kw; kw_spec := kw_spec kw;
     kw_mingw_variant := kw_mingw_variant kw;
     kw_is_autodesktop := kw_is_autodesktop kw;
     kw_tool_options := kw_tool_options kw;
     kw_check_output_cmd := kw_check_output_cmd kw;
     kw_emsdk_version := kw_emsdk_version kw;
     kw_autodesk_arch_folder := kw_autodesk_arch_folder kw |}.

Definition with_output_dir (d : string) (kw : Kwargs) : Kwargs :=
  {| kw_module := kw_module kw; kw_mirror := kw_mirror kw;
     kw_subarchives := kw_subarchives kw; kw_output_dir := Some d;
     kw_list_options := kw_list_options kw; kw_spec := kw_spec kw;
     kw_mingw_variant := kw_mingw_variant kw;
     kw_is_autodesktop := kw_is_autodesktop kw;
     kw_tool_options := kw_tool_options kw;
     kw_check_output_cmd := kw_check_output_cmd kw;
     kw_emsdk_version := kw_emsdk_version kw;
     kw_autodesk_arch_folder := kw_autodesk_arch_folder kw |}.

Definition with_mingw_variant (v : string) (kw : Kwargs) : Kwargs :=
  {| kw_module := kw_module kw; kw_mirror := kw_mirror kw;
     kw_subarchives := kw_subarchives kw; kw_output_dir := kw_output_dir kw;
     kw_list_options := kw_list_options kw; kw_spec := kw_spec kw;
     kw_mingw_variant := v;
     kw_is_autodesktop := kw_is_autodesktop kw;
     kw_tool_options := kw_tool_options kw;
     kw_check_output_cmd := kw_check_output_cmd kw;
     kw_emsdk_version := kw_emsdk_version kw;
     kw_autodesk_arch_folder := kw_autodesk_arch_folder kw |}.

Definition with_tool_options (o : gmap string string) (kw : Kwargs) : Kwargs :=
  {| kw_module := kw_module kw; kw_mirror := kw_mirror kw;
     kw_subarchives := kw_subarchives kw; kw_output_dir := kw_output_dir kw;
     kw_list_options := kw_list_options kw; kw_spec := kw_spec kw;
     kw_mingw_variant := kw_mingw_variant kw;
     kw_is_autodesktop := kw_is_autodesktop kw;
     kw_tool_options := Some o;
     kw_check_output_cmd := kw_check_output_cmd kw;
     kw_emsdk_version := kw_emsdk_version kw;
     kw_autodesk_arch_folder := kw_autodesk_arch_folder kw |}.

Definition with_emsdk_version (v : string) (kw : Kwargs) : Kwargs :=
  {| kw_module := kw_module kw; kw_mirror := kw_mirror kw;
     kw_subarchives := kw_subarchives kw; kw_output_dir := kw_output_dir kw;
     kw_list_options := kw_list_options kw; kw_spec := kw_spec kw;
     kw_mingw_variant := kw_mingw_variant kw;
     kw_is_autodesktop := kw_is_autodesktop kw;
     kw_tool_options := kw_tool_options kw;
     kw_check_output_cmd := kw_check_output_cmd kw;
     kw_emsdk_version := v;
     kw_autodesk_arch_folder := kw_autodesk_arch_folder kw |}.

(** The attributes of a [BuildJob]. *)
Record BuildJob : Type := {
  command : string;
  qt_version : string;
  host : string;
  target : string;
  arch : string;
  archdir : string;
  module : option string;
  mirror : option string;
  subarchives : option string;
  mingw_variant : string;
  is_autodesktop : bool;
  list_options : gmap string string;
  tool_options : gmap string string;
  spec : option string;
  output_dir : option string;
  check_output_cmd : option string;
  emsdk_version : string;
  autodesk_arch_folder : option string
}.

(** [BuildJob.__init__]: an absent, or empty, option dictionary becomes the
    empty dictionary. *)
Definition BuildJob_init (command qt_version host target arch archdir : string)
    (kw : Kwargs) : BuildJob := {|
  command := command;
  qt_version := qt_version;
  host := host;
  target := target;
  arch := arch;
  archdir := archdir;
  module := kw_module kw;
  mirror := kw_mirror kw;
  subarchives := kw_subarchives kw;
  mingw_variant := kw_mingw_variant kw;
  is_autodesktop := kw_is_autodesktop kw;
  list_options := default ∅ (kw_list_options kw);
  tool_options := default ∅ (kw_tool_options kw);
  spec := kw_spec kw;
  output_dir := kw_output_dir kw;
  check_output_cmd := kw_check_output_cmd kw;
  emsdk_version := kw_emsdk_version kw;
  autodesk_arch_folder := kw_autodesk_arch_folder kw
|}.

(** [f"$(Build.BinariesDirectory){sep}Qt" if not self.output_dir else self.output_dir] *)
Definition out_dir (sep : string) (j : BuildJob) : string :=
  Py.or_else (output_dir j) ("$(Build.BinariesDirectory)" +:+ sep +:+ "Qt").

(** ["5.9" if self.qt_version == "5.9.0" else self.qt_version] *)
Definition version_dir (j : BuildJob) : string :=
  if String.eqb (qt_version j) "5.9.0" then "5.9" else qt_version j.

Definition qt_bindir (sep : string) (j : BuildJob) : string :=
  out_dir sep j +:+ sep +:+ version_dir j +:+ sep +:+ archdir j +:+ sep +:+ "bin".

Definition win_qt_bindir (j : BuildJob) : string := qt_bindir "\" j.

Definition autodesk_qt_bindir (sep : string) (j : BuildJob) : string :=
  out_dir sep j +:+ sep +:+ version_dir j +:+ sep
  +:+ Py.or_else (autodesk_arch_folder j) (archdir j) +:+ sep +:+ "bin".

Definition win_autodesk_qt_bindir (j : BuildJob) : string :=
  autodesk_qt_bindir "\" j.

(** The pattern [r"^win(\d+)_(mingw\d+)$"]. *)
Definition mingw_pattern : list Re.item :=
  [Re.Bol; Re.Lit "win"; Re.GroupOpen 1; Re.Digits1; Re.GroupClose 1;
   Re.Lit "_"; Re.GroupOpen 2; Re.Lit "mingw"; Re.Digits1; Re.GroupClose 2;
   Re.Eol].

Definition mingw_folder (j : BuildJob) : Py.result string :=
  if negb (Py.str_truthy (mingw_variant j)) then mret ""
  else
    let match_ := Re.match_ mingw_pattern (mingw_variant j) in
    g2 ← Re.subscript match_ 2;
    g1 ← Re.subscript match_ 1;
    mret (g2 +:+ "_" +:+ g1).

(** ** class PlatformBuildJobs *)

Record PlatformBuildJobs : Type := {
  platform : string;
  build_jobs : list BuildJob
}.

(** ** Module-level data *)

Definition MIRRORS : list string :=
  ["https://ftp.jaist.ac.jp/pub/qtproject";
   "https://ftp1.nluug.nl/languages/qt";
   "https://mirrors.dotsrc.org/qtproject"].

Definition python_versions : list string := ["3.9"].

Definition qt_versions : list string := ["5.13.2"; "5.15.2"].

(** The two jobs that [windows_build_jobs.extend] adds, given the mirrors
    that the two calls of [random.choice(MIRRORS)] returned. *)
Definition windows_desktop_jobs (mirror1 mirror2 : string) : list BuildJob :=
  [BuildJob_init "install-qt" "5.11.3" "windows" "desktop"
     "win64_msvc2015_64" "msvc2015_64"
     (with_mirror mirror1
        (with_subarchives "qttools qtbase qtwinextras qtmultimedia" defaults));
   BuildJob_init "install-qt" "5.11.3" "windows" "desktop"
     "win32_mingw53" "mingw53_32"
     (with_mirror mirror2
        (with_subarchives "qttools qtbase qtwinextras qtmultimedia"
           (with_mingw_variant "win32_mingw530" defaults)))].

Definition qt_creator_bin_path : string := "./Tools/QtCreator/bin/".
Definition qt_creator_mac_bin_path : string := "./Qt Creator.app/Contents/MacOS/".
Definition qt_ifw_bin_path : string := "./Tools/QtInstallerFramework/*/bin/".

Definition catalog_tool_options : gmap string string :=
  <["LIST_TOOL2_CMD" := "ls " +:+ qt_ifw_bin_path]>
  (<["TEST_TOOL2_CMD" := qt_ifw_bin_path +:+ "archivegen --version"]>
  (<["TOOL2_ARGS" := "tools_ifw"]>
  (<["TEST_TOOL1_CMD" := qt_creator_bin_path +:+ "qbs --version"]>
  (<["LIST_TOOL1_CMD" := "ls " +:+ qt_creator_bin_path]>
  (<["TOOL1_ARGS" := "tools_qtcreator qt.tools.qtcreator"]> ∅))))).

(** Mac Qt Creator is a [.app], or "Package Bundle", so the path is changed. *)
Definition catalog_tool_options_mac : gmap string string :=
  <["LIST_TOOL1_CMD" :=
      "ls " +:+ Json.quote +:+ qt_creator_mac_bin_path +:+ Json.quote]>
  (<["TEST_TOOL1_CMD" :=
      Json.quote +:+ qt_creator_mac_bin_path +:+ "qbs" +:+ Json.quote
      +:+ " --version"]>
   catalog_tool_options).

(** ** The matrix loop *)

(** The key of a job in its platform's matrix. *)
Definition matrix_key (j : BuildJob) : string :=
  let key := command j +:+ " " +:+ qt_version j +:+ " " +:+ arch j
             +:+ " for " +:+ target j in
  let key := if Py.truthy (spec j)
             then key +:+ " (spec=" +:+ Json.quote +:+ Py.or_else (spec j) ""
                  +:+ Json.quote +:+ ")"
             else key in
  let key := if Py.truthy (module j)
             then key +:+ " (" +:+ Py.or_else (module j) "" +:+ ")" else key in
  let key := if Py.truthy (subarchives j)
             then key +:+ " (" +:+ Py.or_else (subarchives j) "" +:+ ")" else key in
  let key := if Py.truthy (output_dir j)
             then key +:+ " (" +:+ Py.or_else (output_dir j) "" +:+ ")" else key in
  key.

(** The variables of one job and one Python version: the [OrderedDict] that
    the loop body stores under the key. *)
Definition variables (j : BuildJob) (python_version : string)
    : Py.result (OrderedDict.t string) :=
  mingw ← mingw_folder j;
  emsdk_version_ ← Py.getitem (Py.str_split "@"%char (emsdk_version j +:+ "@main")) 0;
  emsdk_tag ← Py.getitem (Py.str_split "@"%char (emsdk_version j +:+ "@main")) 1;
  mret (OrderedDict.of_pairs
    [("PYTHON_VERSION", python_version);
     ("SUBCOMMAND", command j);
     ("QT_VERSION", qt_version j);
     ("HOST", host j);
     ("TARGET", target j);
     ("ARCH", arch j);
     ("ARCHDIR", archdir j);
     ("MODULE", Py.or_else (module j) "");
     ("QT_BASE_MIRROR", Py.or_else (mirror j) "");
     ("SUBARCHIVES", Py.or_else (subarchives j) "");
     ("SPEC", Py.or_else (spec j) "");
     ("MINGW_VARIANT", mingw_variant j);
     ("MINGW_FOLDER", mingw);
     ("IS_AUTODESKTOP", Py.str_of_bool (is_autodesktop j));
     ("HAS_WASM", Py.dict_get (list_options j) "HAS_WASM" "True");
     ("OUTPUT_DIR", Py.or_else (output_dir j) "");
     ("QT_BINDIR", qt_bindir "/" j);
     ("WIN_QT_BINDIR", win_qt_bindir j);
     ("EMSDK_VERSION", emsdk_version_);
     ("EMSDK_TAG", emsdk_tag);
     ("WIN_AUTODESK_QT_BINDIR", win_autodesk_qt_bindir j);
     ("TOOL1_ARGS", Py.dict_get (tool_options j) "TOOL1_ARGS" "");
     ("LIST_TOOL1_CMD", Py.dict_get (tool_options j) "LIST_TOOL1_CMD" "");
     ("TEST_TOOL1_CMD", Py.dict_get (tool_options j) "TEST_TOOL1_CMD" "");
     ("TOOL2_ARGS", Py.dict_get (tool_options j) "TOOL2_ARGS" "");
     ("LIST_TOOL2_CMD", Py.dict_get (tool_options j) "LIST_TOOL2_CMD" "");
     ("TEST_TOOL2_CMD", Py.dict_get (tool_options j) "TEST_TOOL2_CMD" "");
     ("CHECK_OUTPUT_CMD", Py.or_else (check_output_cmd j) "")]).

(** The names of the variables, in the order of the source. *)
Definition variable_names : list string :=
  ["PYTHON_VERSION"; "SUBCOMMAND"; "QT_VERSION"; "HOST"; "TARGET"; "ARCH";
   "ARCHDIR"; "MODULE"; "QT_BASE_MIRROR"; "SUBARCHIVES"; "SPEC";
   "MINGW_VARIANT"; "MINGW_FOLDER"; "IS_AUTODESKTOP"; "HAS_WASM";
   "OUTPUT_DIR"; "QT_BINDIR"; "WIN_QT_BINDIR"; "EMSDK_VERSION"; "EMSDK_TAG";
   "WIN_AUTODESK_QT_BINDIR"; "TOOL1_ARGS"; "LIST_TOOL1_CMD"; "TEST_TOOL1_CMD";
   "TOOL2_ARGS"; "LIST_TOOL2_CMD"; "TEST_TOOL2_CMD"; "CHECK_OUTPUT_CMD"].

(** The inner loop, over [product(build_jobs, python_versions)], from the
    dictionary built so far. *)
Fixpoint matrix_loop (pairs : list (BuildJob * string))
    (matrix_dictionary : OrderedDict.t (OrderedDict.t string))
    : Py.result (OrderedDict.t (OrderedDict.t string)) :=
  match pairs with
  | [] => mret matrix_dictionary
  | (build_job, python_version) :: rest =>
      vars ← variables build_job python_version;
      matrix_loop rest
        (OrderedDict.setitem matrix_dictionary (matrix_key build_job) vars)
  end.

(** The [matrix_dictionary] of one platform. *)
Definition matrix_dictionary (jobs : list BuildJob) (versions : list string)
    : Py.result (OrderedDict.t (OrderedDict.t string)) :=
  matrix_loop (Py.product jobs versions) OrderedDict.empty.

(** The outer loop, over [all_platform_build_jobs], from the [matrices]
    built so far. *)
Fixpoint matrices_loop (platforms : list PlatformBuildJobs)
    (matrices : gmap string (OrderedDict.t (OrderedDict.t string)))
    : Py.result (gmap string (OrderedDict.t (OrderedDict.t string))) :=
  match platforms with
  | [] => mret matrices
  | platform_build_job :: rest =>
      d ← matrix_dictionary (build_jobs platform_build_job) python_versions;
      matrices_loop rest (<[platform platform_build_job := d]> matrices)
  end.

(** ** The script *)

(** What the script reads and writes: the entropy of the operating system,
    an endless sequence of draws of which [drawn] were taken, and the text
    written to standard output. *)
Record World : Type := {
  entropy : nat -> nat;
  drawn : nat;
  stdout : string
}.

Module Prog.

(** A computation returns a value or raises, and leaves a world. *)
Definition t (A : Type) : Type := World -> Py.result A * World.

Definition ret {A} (a : A) : t A := fun w => (Py.Ok a, w).

Definition bind {A B} (c : t A) (k : A -> t B) : t B :=
  fun w =>
    match c w with
    | (Py.Ok a, w') => k a w'
    | (Py.Raise e, w') => (Py.Raise e, w')
    end.

Definition lift {A} (r : Py.result A) : t A := fun w => (r, w).

(** [secrets.choice(seq)]: [seq[randbelow(len(seq))]]. *)
Definition choice (seq : list string) : t string :=
  fun w =>
    match seq with
    | [] => (Py.Raise Py.IndexError, w)
    | _ :: _ =>
        (Py.getitem seq (entropy w (drawn w) mod length seq),
         {| entropy := entropy w; drawn := S (drawn w); stdout := stdout w |})
    end.

(** [print(s)]. *)
Definition print (s : string) : t unit :=
  fun w =>
    (Py.Ok tt,
     {| entropy := entropy w; drawn := drawn w;
        stdout := stdout w +:+ s +:+ String "010"%char "" |}).

End Prog.

Notation "'let*' x := c 'in' k" := (Prog.bind c (fun x => k))
  (at level 10, x name, c at level 100, k at level 200).
Notation "c ;;; k" := (Prog.bind c (fun _ => k))
  (at level 100, k at level 200, right associativity).

Definition set_variable (name payload : string) : string :=
  "##vso[task.setVariable variable=" +:+ name +:+ ";isOutput=true]" +:+ payload.

(** [all_platform_build_jobs]: only the Windows platform is registered.  The
    entry holds the list object [windows_build_jobs] itself, so it sees the
    jobs that [extend] adds after the registration. *)
Definition all_platform_build_jobs (windows_build_jobs : list BuildJob)
    : list PlatformBuildJobs :=
  [{| platform := "windows"; build_jobs := windows_build_jobs |}].

(** The script, top to bottom.  [linux_build_jobs] and [mac_build_jobs] are
    the contents of the two lists of that name; the source leaves both
    empty. *)
Definition script (linux_build_jobs mac_build_jobs : list BuildJob) : Prog.t unit :=
  let windows_build_jobs : list BuildJob := [] in
  let* mirror1 := Prog.choice MIRRORS in
  let* mirror2 := Prog.choice MIRRORS in
  let windows_build_jobs :=
    (windows_build_jobs ++ windows_desktop_jobs mirror1 mirror2)%list in
  let* matrices :=
    Prog.lift (matrices_loop (all_platform_build_jobs windows_build_jobs) ∅) in
  Prog.print "Setting Variables below";;;
  let* windows := Prog.lift (Py.dict_getitem matrices "windows") in
  Prog.print (set_variable "windows" (Json.dumps (Json.of_matrix windows)));;;
  Prog.print (set_variable "linux" "");;;
  Prog.print (set_variable "mac" "").

(** The world in which the script starts, on the entropy [e]. *)
Definition boot (e : nat -> nat) : World :=
  {| entropy := e; drawn := 0; stdout := "" |}.

(** One run of the shipped script on the entropy [e]. *)
Definition run_script (e : nat -> nat) : Py.result unit * World :=
  script [] [] (boot e).

(** ** Vocabulary of the specification *)

Definition newline : string := String "010"%char "".

(** The character [c] occurs in [s]. *)
Fixpoint contains (c : ascii) (s : string) : bool :=
  match s with
  | EmptyString => false
  | String a s' => Ascii.eqb a c || contains c s'
  end.

Fixpoint all_digits (s : string) : bool :=
  match s with
  | EmptyString => true
  | String c s' => Re.is_digit c && all_digits s'
  end.

(** [<digits>]: one or more of the characters [0] to [9]. *)
Definition digits (d : string) : Prop :=
  d <> "" /\ all_digits d = true.

(** The shape [win<digits>_mingw<digits>], as the specification words it. *)
Definition mingw_shape (v : string) : Prop :=
  exists d1 d2, digits d1 /\ digits d2 /\ v = "win" +:+ d1 +:+ "_mingw" +:+ d2.

(** The lines of a text in which every line ends with a newline. *)
Fixpoint lines_of (out : string) : list string :=
  match out with
  | EmptyString => []
  | String c out' =>
      if Ascii.eqb c "010"%char then EmptyString :: lines_of out'
      else match lines_of out' with
           | h :: t => String c h :: t
           | [] => [String c EmptyString]
           end
  end.

(** The mirror that the [k]-th call of [secrets.choice(MIRRORS)] returns on
    the entropy [e]. *)
Definition mirror_choice (e : nat -> nat) (k : nat) : Py.result string :=
  Py.getitem MIRRORS (e k mod length MIRRORS).

(** ** Jobs used as examples *)

(** The second job of the catalog with another MinGW variant. *)
Definition mingw_job (variant : string) : BuildJob :=
  BuildJob_init "install-qt" "5.11.3" "windows" "desktop"
    "win32_mingw53" "mingw53_32" (with_mingw_variant variant defaults).

(** The first job of the catalog with another Qt version and other keyword
    arguments. *)
Definition desktop_job (version : string) (kw : Kwargs) : BuildJob :=
  BuildJob_init "install-qt" version "windows" "desktop"
    "win64_msvc2015_64" "msvc2015_64" kw.

(** The six variables of the two tool slots. *)
Definition tool_variable_names : list string :=
  ["TOOL1_ARGS"; "LIST_TOOL1_CMD"; "TEST_TOOL1_CMD";
   "TOOL2_ARGS"; "LIST_TOOL2_CMD"; "TEST_TOOL2_CMD"].

(** The entry of a pair of the product in the matrix: its key, and the
    variables derived for it. *)
Definition entry_of (pair : BuildJob * string)
    (entry : string * OrderedDict.t string) : Prop :=
  entry.1 = matrix_key pair.1 /\ variables pair.1 pair.2 = Py.Ok entry.2.

(** [module] given as a keyword argument. *)
Definition with_module (m : string) (kw : Kwargs) : Kwargs :=
  {| kw_module := Some m; kw_mirror := kw_mirror kw;
     kw_subarchives := kw_subarchives kw; kw_output_dir := kw_output_dir kw;
     kw_list_options := kw_list_options kw; kw_spec := kw_spec kw;
     kw_mingw_variant := kw_mingw_variant kw;
     kw_is_autodesktop := kw_is_autodesktop kw;
     kw_tool_options := kw_tool_options kw;
     kw_check_output_cmd := kw_check_output_cmd kw;
     kw_emsdk_version := kw_emsdk_version kw;
     kw_autodesk_arch_folder := kw_autodesk_arch_folder kw |}.



(** The value of a hexadecimal digit, as [hex_digit] writes it. *)
Definition hex_value (c : ascii) : nat :=
  let n := nat_of_ascii c in
  if Nat.leb 97 n then n - 87 else n - 48.

(** The character that a letter stands for after a backslash. *)
Definition unescape_letter (c : ascii) : ascii :=
  let n := nat_of_ascii c in
  if Nat.eqb n 98 then "008"%char
  else if Nat.eqb n 102 then "012"%char
  else if Nat.eqb n 110 then "010"%char
  else if Nat.eqb n 114 then "013"%char
  else if Nat.eqb n 116 then "009"%char
  else c.

(** Reading back the body of a JSON string that [Json.escape] wrote. *)
Fixpoint unescape (s : string) : string :=
  match s with
  | EmptyString => EmptyString
  | String c rest =>
      if Ascii.eqb c "\"%char then
        match rest with
        | EmptyString => EmptyString
        | String k rest' =>
            if Ascii.eqb k "u"%char then
              match rest' with
              | String _ (String _ (String h (String l rest''))) =>
                  String (ascii_of_nat (16 * hex_value h + hex_value l))
                    (unescape rest'')
              | _ => EmptyString
              end
            else String (unescape_letter k) (unescape rest')
        end
      else String c (unescape rest)
  end.

(** An optional text in which the empty text counts as absent. *)
Definition blank_as_absent (o : option string) : option string :=
  if Py.truthy o then o else None.

(** The job in which every optional text that is empty is absent. *)
Definition without_blanks (j : BuildJob) : BuildJob := {|
  command := command j;
  qt_version := qt_version j;
  host := host j;
  target := target j;
  arch := arch j;
  archdir := archdir j;
  module := blank_as_absent (module j);
  mirror := blank_as_absent (mirror j);
  subarchives := blank_as_absent (subarchives j);
  mingw_variant := mingw_variant j;
  is_autodesktop := is_autodesktop j;
  list_options := list_options j;
  tool_options := tool_options j;
  spec := blank_as_absent (spec j);
  output_dir := blank_as_absent (output_dir j);
  check_output_cmd := blank_as_absent (check_output_cmd j);
  emsdk_version := emsdk_version j;
  autodesk_arch_folder := blank_as_absent (autodesk_arch_folder j)
|}.

(** * Properties *)

(** ** Strings *)

Lemma str_app_cons (x : ascii) (a b : string) : String x a +:+ b = String x (a +:+ b).
Proof. reflexivity. Qed.

Lemma str_app_nil_l (s : string) : "" +:+ s = s.
Proof. reflexivity. Qed.

Lemma str_app_nil_r (s : string) : s +:+ "" = s.
Proof. induction s as [|a s IH]; [reflexivity|]. by rewrite str_app_cons, IH. Qed.

Lemma str_app_assoc (a b c : string) : (a +:+ b) +:+ c = a +:+ (b +:+ c).
Proof. induction a as [|x a IH]; [reflexivity|]. by rewrite !str_app_cons, IH. Qed.

Lemma drop_app_length (a b : string) : Re.drop (String.length a) (a +:+ b) = b.
Proof. induction a as [|x a IH]; [reflexivity|]. rewrite str_app_cons. exact IH. Qed.

Lemma strip_prefix_app (p s : string) : Re.strip_prefix p (p +:+ s) = Some s.
Proof.
  induction p as [|x p IH]; [reflexivity|].
  rewrite str_app_cons. cbn. by rewrite Ascii.eqb_refl.
Qed.

Lemma strip_prefix_inv (p s r : string) :
  Re.strip_prefix p s = Some r -> s = p +:+ r.
Proof.
  revert s. induction p as [|x p IH]; intros s H.
  - cbn in H. by inversion H.
  - destruct s as [|y s]; [discriminate|]. cbn in H.
    destruct (Ascii.eqb_spec x y) as [->|]; [|discriminate].
    rewrite str_app_cons. f_equal. by apply IH.
Qed.

Lemma contains_app (c : ascii) (a b : string) :
  contains c (a +:+ b) = contains c a || contains c b.
Proof.
  induction a as [|x a IH]; [reflexivity|].
  rewrite str_app_cons. cbn. rewrite IH. by rewrite orb_assoc.
Qed.

Lemma all_digits_app (a b : string) :
  all_digits (a +:+ b) = all_digits a && all_digits b.
Proof.
  induction a as [|x a IH]; [reflexivity|].
  rewrite str_app_cons. cbn. rewrite IH. by rewrite andb_assoc.
Qed.



(** ** The regular expression *)

Lemma advance_advance (a b : string) (st : Re.mstate) :
  Re.advance b (Re.advance a st) = Re.advance (a +:+ b) st.
Proof. unfold Re.advance. cbn. by rewrite str_app_assoc. Qed.

(** A match of [\d+] consumed some digits [d], and the rest of the pattern
    matched what follows them. *)
Lemma digits1_sound (k : Re.mstate -> string -> option Re.mstate) :
  forall rest st r,
    Re.digits1 k st rest = Some r ->
    exists d tail, digits d /\ rest = d +:+ tail /\ k (Re.advance d st) tail = Some r.
Proof.
  induction rest as [|c rest IH]; intros st r H; [discriminate|].
  cbn [Re.digits1] in H. destruct (Re.is_digit c) eqn:Hc; [|discriminate].
  destruct (Re.digits1 k _ rest) as [r0|] eqn:Hgo.
  - inversion H; subst r0.
    destruct (IH _ _ Hgo) as (d & tail & [_ Hd] & -> & Hk).
    exists (String c d), tail. repeat split.
    + discriminate.
    + cbn [all_digits]. by rewrite Hc, Hd.
    + by rewrite advance_advance in Hk.
  - exists (String c ""), rest. repeat split.
    + discriminate.
    + cbn [all_digits]. by rewrite Hc.
    + exact H.
Qed.

(** [\d+] takes all the digits when the rest of the pattern then matches. *)
Lemma digits1_greedy (k : Re.mstate -> string -> option Re.mstate) :
  forall d tail st r,
    digits d ->
    (forall c t, tail = String c t -> Re.is_digit c = false) ->
    k (Re.advance d st) tail = Some r ->
    Re.digits1 k st (d +:+ tail) = Some r.
Proof.
  induction d as [|c d IH]; intros tail st r [Hne Hd] Htail Hk; [done|].
  cbn [all_digits] in Hd. apply andb_true_iff in Hd as [Hc Hd].
  rewrite str_app_cons. cbn [Re.digits1]. rewrite Hc.
  destruct d as [|c' d].
  - rewrite str_app_nil_l.
    assert (Re.digits1 k (Re.advance (String c "") st) tail = None) as ->.
    { destruct tail as [|x t]; [reflexivity|].
      cbn [Re.digits1]. by rewrite (Htail x t eq_refl). }
    exact Hk.
  - rewrite (IH tail (Re.advance (String c "") st) r); [reflexivity| |exact Htail|].
    + split; [discriminate|exact Hd].
    + by rewrite advance_advance.
Qed.

Lemma at_end_inv (rest : string) :
  Re.at_end rest = true -> rest = "" \/ rest = newline.
Proof.
  destruct rest as [|c [|c' rest]]; cbn; intros H; [by left| |discriminate].
  right. by apply Ascii.eqb_eq in H as ->.
Qed.

(** The pattern matches the shape, followed or not by one newline, and
    captures the two runs of digits. *)
Lemma mingw_pattern_matches (d1 d2 nl : string) :
  digits d1 -> digits d2 -> nl = "" \/ nl = newline ->
  exists st,
    Re.match_ mingw_pattern ("win" +:+ d1 +:+ "_mingw" +:+ d2 +:+ nl) = Some st /\
    Re.groups st = [(2, "mingw" +:+ d2); (1, d1)].
Proof.
  intros H1 H2 Hnl.
  unfold Re.match_, mingw_pattern.
  cbn [Re.run Re.consumed]. rewrite strip_prefix_app.
  replace ("_mingw" +:+ d2 +:+ nl) with ("_" +:+ ("mingw" +:+ (d2 +:+ nl)))
    by reflexivity.
  eexists. split.
  - apply digits1_greedy; [exact H1| |].
    { intros c t Ht. rewrite str_app_cons in Ht. by inversion Ht. }
    rewrite !strip_prefix_app.
    apply digits1_greedy; [exact H2| |].
    { intros c t Ht. destruct Hnl as [->| ->]; [discriminate|]. by inversion Ht. }
    assert (Re.at_end nl = true) as -> by (by destruct Hnl as [->| ->]).
    reflexivity.
  - unfold Re.close_group, Re.advance, Re.open_group.
    cbn [Re.consumed Re.opened Re.groups Re.assoc Nat.eqb].
    rewrite drop_app_length.
    rewrite (str_app_assoc _ "mingw" d2), drop_app_length.
    reflexivity.
Qed.

(** Conversely, whatever the pattern matches is the shape, followed or not
    by one newline. *)
Lemma mingw_pattern_inv (s : string) (st : Re.mstate) :
  Re.match_ mingw_pattern s = Some st ->
  exists d1 d2 nl,
    digits d1 /\ digits d2 /\ (nl = "" \/ nl = newline) /\
    s = "win" +:+ d1 +:+ "_mingw" +:+ d2 +:+ nl.
Proof.
  unfold Re.match_, mingw_pattern. cbn [Re.run Re.consumed]. intros H.
  destruct (Re.strip_prefix "win" s) as [r1|] eqn:E1; [|discriminate].
  apply strip_prefix_inv in E1 as ->.
  apply digits1_sound in H as (d1 & t1 & Hd1 & -> & H).
  destruct (Re.strip_prefix "_" t1) as [r2|] eqn:E2; [|discriminate].
  apply strip_prefix_inv in E2 as ->.
  destruct (Re.strip_prefix "mingw" r2) as [r3|] eqn:E3; [|discriminate].
  apply strip_prefix_inv in E3 as ->.
  apply digits1_sound in H as (d2 & t2 & Hd2 & -> & H).
  destruct (Re.at_end t2) eqn:E4; [|discriminate].
  apply at_end_inv in E4.
  exists d1, d2, t2.
  split; [exact Hd1|]. split; [exact Hd2|]. split; [exact E4|reflexivity].
Qed.

(** ** mingw_folder *)

Lemma mingw_folder_empty (j : BuildJob) :
  mingw_variant j = "" -> mingw_folder j = Py.Ok "".
Proof. unfold mingw_folder. by intros ->. Qed.

Lemma mingw_folder_match (j : BuildJob) (d1 d2 nl : string) :
  digits d1 -> digits d2 -> nl = "" \/ nl = newline ->
  mingw_variant j = "win" +:+ d1 +:+ "_mingw" +:+ d2 +:+ nl ->
  mingw_folder j = Py.Ok (("mingw" +:+ d2) +:+ "_" +:+ d1).
Proof.
  intros H1 H2 Hnl Hv.
  destruct (mingw_pattern_matches d1 d2 nl H1 H2 Hnl) as (st & Hm & Hg).
  unfold mingw_folder. rewrite Hv, Hm.
  unfold Re.subscript. rewrite Hg. reflexivity.
Qed.

Lemma mingw_folder_no_match (j : BuildJob) :
  mingw_variant j <> "" ->
  Re.match_ mingw_pattern (mingw_variant j) = None ->
  mingw_folder j = Py.Raise Py.TypeError.
Proof.
  intros Hne Hm. unfold mingw_folder. rewrite Hm.
  by destruct (mingw_variant j).
Qed.


(** C4. [mingw_folder()] turns the variant [win32_mingw530] into
    [mingw530_32]; more generally a variant [win<digits>_mingw<digits>] is
    reordered to [mingw<digits>_<digits>]; the empty variant gives the empty
    string. *)
Theorem mingw_folder_reorders (j : BuildJob) :
  (mingw_variant j = "win32_mingw530" -> mingw_folder j = Py.Ok "mingw530_32") /\
  (forall d1 d2, digits d1 -> digits d2 ->
     mingw_variant j = "win" +:+ d1 +:+ "_mingw" +:+ d2 ->
     mingw_folder j = Py.Ok (("mingw" +:+ d2) +:+ "_" +:+ d1)) /\
  (mingw_variant j = "" -> mingw_folder j = Py.Ok "").
Proof.
  split; [|split].
  - intros Hv. unfold mingw_folder. rewrite Hv. reflexivity.
  - intros d1 d2 H1 H2 Hv.
    apply (mingw_folder_match j d1 d2 ""); [exact H1|exact H2|by left|].
    by rewrite str_app_nil_r.
  - apply mingw_folder_empty.
Qed.

Lemma mingw_folder_reorders_witness :
  mingw_folder (mingw_job "win32_mingw530") = Py.Ok "mingw530_32" /\
  mingw_folder (mingw_job "win64_mingw810") = Py.Ok "mingw810_64" /\
  mingw_folder (mingw_job "") = Py.Ok "".
Proof.
  split; [|split].
  - apply (proj1 (mingw_folder_reorders (mingw_job "win32_mingw530"))).
    reflexivity.
  - apply (proj1 (proj2 (mingw_folder_reorders (mingw_job "win64_mingw810")))
             "64" "810").
    + split; [discriminate|reflexivity].
    + split; [discriminate|reflexivity].
    + reflexivity.
  - apply (proj2 (proj2 (mingw_folder_reorders (mingw_job "")))).
    reflexivity.
Defined.




(** ** str.split *)

Lemma str_split_nonempty (sep : ascii) (s : string) : Py.str_split sep s <> [].
Proof.
  destruct s as [|c s]; [discriminate|].
  cbn [Py.str_split]. destruct (Ascii.eqb c sep); [discriminate|].
  by destruct (Py.str_split sep s).
Qed.

(** A text without the separator, followed by the separator, is the first
    part of the split. *)
Lemma str_split_first (sep : ascii) (v t : string) :
  contains sep v = false ->
  Py.str_split sep (v +:+ String sep t) = v :: Py.str_split sep t.
Proof.
  induction v as [|c v IH]; intros H.
  - rewrite str_app_nil_l. cbn [Py.str_split]. by rewrite Ascii.eqb_refl.
  - cbn [contains] in H. apply orb_false_iff in H as [Hc Hv].
    rewrite str_app_cons. cbn [Py.str_split]. rewrite Hc, (IH Hv). reflexivity.
Qed.

(** A text in which the separator occurs splits into two parts at least. *)
Lemma str_split_two (sep : ascii) (v t : string) :
  exists first second rest,
    Py.str_split sep (v +:+ String sep t) = first :: second :: rest.
Proof.
  induction v as [|c v (first & second & rest & IH)].
  - rewrite str_app_nil_l. cbn [Py.str_split]. rewrite Ascii.eqb_refl.
    destruct (Py.str_split sep t) as [|x l] eqn:E.
    + by apply str_split_nonempty in E.
    + by exists "", x, l.
  - rewrite str_app_cons. cbn [Py.str_split]. rewrite IH.
    destruct (Ascii.eqb c sep); by eauto.
Qed.

(** ** variables *)

(** What [variables] returns: the association list of the source, with the
    MinGW folder and the first two parts of the split toolchain field. *)
Lemma variables_inv (j : BuildJob) (pv : string) (vars : OrderedDict.t string) :
  variables j pv = Py.Ok vars ->
  exists mingw first second rest,
    mingw_folder j = Py.Ok mingw /\
    Py.str_split "@"%char (emsdk_version j +:+ "@main") = first :: second :: rest /\
    vars =
      [("PYTHON_VERSION", pv);
       ("SUBCOMMAND", command j);
       ("QT_VERSION", qt_version j);
       ("HOST", host j);
       ("TARGET", target j);
       ("ARCH", arch j);
       ("ARCHDIR", archdir j);
       ("MODULE", Py.or_else (module j) "");
       ("QT_BASE_MIRROR", Py.or_else (mirror j) "");
       ("SUBARCHIVES", Py.or_else (subarchives j) "");
       ("SPEC", Py.or_else (spec j) "");
       ("MINGW_VARIANT", mingw_variant j);
       ("MINGW_FOLDER", mingw);
       ("IS_AUTODESKTOP", Py.str_of_bool (is_autodesktop j));
       ("HAS_WASM", Py.dict_get (list_options j) "HAS_WASM" "True");
       ("OUTPUT_DIR", Py.or_else (output_dir j) "");
       ("QT_BINDIR", qt_bindir "/" j);
       ("WIN_QT_BINDIR", win_qt_bindir j);
       ("EMSDK_VERSION", first);
       ("EMSDK_TAG", second);
       ("WIN_AUTODESK_QT_BINDIR", win_autodesk_qt_bindir j);
       ("TOOL1_ARGS", Py.dict_get (tool_options j) "TOOL1_ARGS" "");
       ("LIST_TOOL1_CMD", Py.dict_get (tool_options j) "LIST_TOOL1_CMD" "");
       ("TEST_TOOL1_CMD", Py.dict_get (tool_options j) "TEST_TOOL1_CMD" "");
       ("TOOL2_ARGS", Py.dict_get (tool_options j) "TOOL2_ARGS" "");
       ("LIST_TOOL2_CMD", Py.dict_get (tool_options j) "LIST_TOOL2_CMD" "");
       ("TEST_TOOL2_CMD", Py.dict_get (tool_options j) "TEST_TOOL2_CMD" "");
       ("CHECK_OUTPUT_CMD", Py.or_else (check_output_cmd j) "")].
Proof.
  unfold variables. intros H.
  destruct (mingw_folder j) as [mingw|e] eqn:Hm; [|discriminate].
  destruct (str_split_two "@"%char (emsdk_version j) "main")
    as (first & second & rest & Hs).
  change (emsdk_version j +:+ "@main")
    with (emsdk_version j +:+ String "@"%char "main") in H |- *.
  rewrite Hs in H. cbn in H. inversion H; subst vars.
  by exists mingw, first, second, rest.
Qed.

(** Deriving the variables raises only when [mingw_folder] does. *)
Lemma variables_raise (j : BuildJob) (pv : string) (e : Py.exn) :
  variables j pv = Py.Raise e -> mingw_folder j = Py.Raise e.
Proof.
  unfold variables. intros H.
  destruct (mingw_folder j) as [mingw|e'] eqn:Hm.
  - destruct (str_split_two "@"%char (emsdk_version j) "main")
      as (first & second & rest & Hs).
    change (emsdk_version j +:+ "@main")
      with (emsdk_version j +:+ String "@"%char "main") in H.
    rewrite Hs in H. discriminate H.
  - cbn in H. by inversion H.
Qed.

Lemma variables_total (j : BuildJob) (pv mingw : string) :
  mingw_folder j = Py.Ok mingw -> exists vars, variables j pv = Py.Ok vars.
Proof.
  intros Hm. destruct (variables j pv) as [vars|e] eqn:H; [by eauto|].
  apply variables_raise in H. congruence.
Qed.

(** C6. [qt_bindir()] joins the base directory, the version segment, the
    architecture directory and [bin] with the separator; the segment is
    [5.9] when the Qt version is [5.9.0] and the version itself otherwise,
    so that it differs from the version exactly when the version is
    [5.9.0]. *)
Theorem qt_bindir_version_segment (sep : string) (j : BuildJob) :
  qt_bindir sep j
    = Py.str_join sep [out_dir sep j; version_dir j; archdir j; "bin"] /\
  (qt_version j = "5.9.0" -> version_dir j = "5.9") /\
  (qt_version j <> "5.9.0" -> version_dir j = qt_version j) /\
  (version_dir j <> qt_version j <-> qt_version j = "5.9.0").
Proof.
  unfold version_dir.
  split; [reflexivity|].
  destruct (String.eqb_spec (qt_version j) "5.9.0") as [E|E].
  - split; [done|]. split; [done|]. split; [done|]. intros _. by rewrite E.
  - split; [done|]. split; [done|]. split; [done|]. intros ?. done.
Qed.

Lemma qt_bindir_version_segment_witness :
  version_dir (desktop_job "5.9.0" defaults) = "5.9" /\
  version_dir (desktop_job "5.11.3" defaults) = "5.11.3".
Proof.
  split.
  - apply (proj1 (proj2 (qt_bindir_version_segment "/" (desktop_job "5.9.0" defaults)))).
    reflexivity.
  - apply (proj1 (proj2 (proj2
      (qt_bindir_version_segment "/" (desktop_job "5.11.3" defaults))))).
    discriminate.
Defined.

(** C7. Without [output_dir] the variable [QT_BINDIR] is rooted at
    [$(Build.BinariesDirectory)/Qt] and [WIN_QT_BINDIR] at the same with a
    backslash; with [output_dir] both start with the override, and below a
    non-empty override comes the separator of each variable. *)
Theorem bindir_root (j : BuildJob) (pv : string) (vars : OrderedDict.t string) :
  variables j pv = Py.Ok vars ->
  (output_dir j = None ->
     OrderedDict.get vars "QT_BINDIR"
       = Some ("$(Build.BinariesDirectory)/Qt" +:+ "/"
               +:+ Py.str_join "/" [version_dir j; archdir j; "bin"]) /\
     OrderedDict.get vars "WIN_QT_BINDIR"
       = Some ("$(Build.BinariesDirectory)\Qt" +:+ "\"
               +:+ Py.str_join "\" [version_dir j; archdir j; "bin"])) /\
  (forall d, output_dir j = Some d ->
     (exists below below_win,
        OrderedDict.get vars "QT_BINDIR" = Some (d +:+ below) /\
        OrderedDict.get vars "WIN_QT_BINDIR" = Some (d +:+ below_win)) /\
     (d <> "" ->
        OrderedDict.get vars "QT_BINDIR"
          = Some (d +:+ "/" +:+ Py.str_join "/" [version_dir j; archdir j; "bin"]) /\
        OrderedDict.get vars "WIN_QT_BINDIR"
          = Some (d +:+ "\" +:+ Py.str_join "\" [version_dir j; archdir j; "bin"]))).
Proof.
  intros (mingw & first & second & rest & _ & _ & ->)%variables_inv.
  cbn [OrderedDict.get String.eqb Ascii.eqb Bool.eqb].
  unfold win_qt_bindir, qt_bindir, out_dir.
  split.
  - intros ->. split; reflexivity.
  - intros d ->. destruct d as [|c d].
    + split; [|done]. cbn [Py.or_else Py.str_truthy].
      do 2 eexists. split; reflexivity.
    + split; [|intros _; split; reflexivity].
      cbn [Py.or_else Py.str_truthy]. do 2 eexists. split; reflexivity.
Qed.

Lemma bindir_root_witness :
  exists vars,
    variables (desktop_job "5.11.3" (with_output_dir "D:\Qt" defaults)) "3.9"
      = Py.Ok vars /\
    OrderedDict.get vars "QT_BINDIR" = Some "D:\Qt/5.11.3/msvc2015_64/bin" /\
    OrderedDict.get vars "WIN_QT_BINDIR" = Some "D:\Qt\5.11.3\msvc2015_64\bin".
Proof.
  eexists. split; [reflexivity|].
  apply (proj2 (proj2 (bindir_root
    (desktop_job "5.11.3" (with_output_dir "D:\Qt" defaults)) "3.9" _ eq_refl)
    "D:\Qt" eq_refl)).
  discriminate.
Defined.

(** C8. The toolchain field [sdk-fastcomp-1.38.27-64bit@3.1.29] splits into
    the version [sdk-fastcomp-1.38.27-64bit] and the tag [3.1.29]; a field
    without [@] is the version, and the tag is [main]. *)
Theorem emsdk_version_split (j : BuildJob) (pv : string)
    (vars : OrderedDict.t string) :
  variables j pv = Py.Ok vars ->
  (emsdk_version j = "sdk-fastcomp-1.38.27-64bit@3.1.29" ->
     OrderedDict.get vars "EMSDK_VERSION" = Some "sdk-fastcomp-1.38.27-64bit" /\
     OrderedDict.get vars "EMSDK_TAG" = Some "3.1.29") /\
  (contains "@"%char (emsdk_version j) = false ->
     OrderedDict.get vars "EMSDK_VERSION" = Some (emsdk_version j) /\
     OrderedDict.get vars "EMSDK_TAG" = Some "main").
Proof.
  intros (mingw & first & second & rest & _ & Hs & ->)%variables_inv.
  cbn [OrderedDict.get String.eqb Ascii.eqb Bool.eqb].
  split.
  - intros E. rewrite E in Hs. cbv in Hs. by inversion Hs.
  - intros E.
    change (emsdk_version j +:+ "@main")
      with (emsdk_version j +:+ String "@"%char "main") in Hs.
    rewrite (str_split_first _ _ _ E) in Hs. cbv in Hs. by inversion Hs.
Qed.

Lemma emsdk_version_split_witness :
  exists vars,
    variables (desktop_job "5.11.3" (with_emsdk_version "1.39.8" defaults)) "3.9"
      = Py.Ok vars /\
    OrderedDict.get vars "EMSDK_VERSION" = Some "1.39.8" /\
    OrderedDict.get vars "EMSDK_TAG" = Some "main".
Proof.
  eexists. split; [reflexivity|].
  apply (proj2 (emsdk_version_split
    (desktop_job "5.11.3" (with_emsdk_version "1.39.8" defaults)) "3.9" _ eq_refl)).
  reflexivity.
Defined.

(** C9. Absent optional fields never make the derivation raise (it raises
    only when [mingw_folder] does, and not at all for the default, empty,
    MinGW variant), and every variable name is present, in the order of the
    source, with a string value.  An absent optional field gives the empty
    string, [True] for [HAS_WASM], and [main] for the tag of a toolchain
    field without [@].  Without [tool_options] the six tool variables are
    empty; with [TOOL1_ARGS] alone, that variable has its value and the
    other five are empty. *)
Theorem absent_fields_default
    (command qt_version host target arch archdir : string) (kw : Kwargs)
    (pv : string) :
  let j := BuildJob_init command qt_version host target arch archdir kw in
  (forall e, variables j pv = Py.Raise e -> mingw_folder j = Py.Raise e) /\
  (kw_mingw_variant kw = "" -> exists vars, variables j pv = Py.Ok vars) /\
  (forall vars, variables j pv = Py.Ok vars ->
     OrderedDict.keys vars = variable_names /\
     (kw_module kw = None -> OrderedDict.get vars "MODULE" = Some "") /\
     (kw_mirror kw = None -> OrderedDict.get vars "QT_BASE_MIRROR" = Some "") /\
     (kw_subarchives kw = None -> OrderedDict.get vars "SUBARCHIVES" = Some "") /\
     (kw_spec kw = None -> OrderedDict.get vars "SPEC" = Some "") /\
     (kw_output_dir kw = None -> OrderedDict.get vars "OUTPUT_DIR" = Some "") /\
     (kw_check_output_cmd kw = None ->
        OrderedDict.get vars "CHECK_OUTPUT_CMD" = Some "") /\
     (kw_list_options kw = None -> OrderedDict.get vars "HAS_WASM" = Some "True") /\
     (contains "@"%char (kw_emsdk_version kw) = false ->
        OrderedDict.get vars "EMSDK_TAG" = Some "main") /\
     (kw_tool_options kw = None ->
        map (OrderedDict.get vars) tool_variable_names
          = [Some ""; Some ""; Some ""; Some ""; Some ""; Some ""]) /\
     (forall args, kw_tool_options kw = Some {[ "TOOL1_ARGS" := args ]} ->
        map (OrderedDict.get vars) tool_variable_names
          = [Some args; Some ""; Some ""; Some ""; Some ""; Some ""])).
Proof.
  intros j. split; [|split].
  - intros e. apply variables_raise.
  - intros Hv. apply (variables_total j pv "").
    apply mingw_folder_empty. exact Hv.
  - intros vars Hvars.
    apply variables_inv in Hvars
      as (mingw & first & second & rest & _ & Hs & ->).
    assert (contains "@"%char (emsdk_version j) = false -> second = "main")
      as Htag.
    { intros E.
      change (emsdk_version j +:+ "@main")
        with (emsdk_version j +:+ String "@"%char "main") in Hs.
      rewrite (str_split_first _ _ _ E) in Hs. cbv in Hs. by inversion Hs. }
    cbn [map tool_variable_names OrderedDict.get String.eqb Ascii.eqb Bool.eqb].
    subst j. cbn [module mirror subarchives spec output_dir check_output_cmd
                  list_options tool_options BuildJob_init].
    split; [reflexivity|].
    split; [by intros ->|]. split; [by intros ->|]. split; [by intros ->|].
    split; [by intros ->|]. split; [by intros ->|]. split; [by intros ->|].
    split; [by intros ->|].
    split; [intros E; by rewrite (Htag E)|].
    split; [by intros ->|].
    intros args ->. cbn [default]. unfold Py.dict_get, id.
    rewrite lookup_singleton_eq.
    by rewrite !lookup_singleton_ne.
Qed.

Lemma absent_fields_default_witness :
  exists vars,
    variables
      (desktop_job "5.11.3"
         (with_tool_options {[ "TOOL1_ARGS" := "tools_ifw" ]} defaults)) "3.9"
      = Py.Ok vars /\
    OrderedDict.get vars "MODULE" = Some "" /\
    map (OrderedDict.get vars) tool_variable_names
      = [Some "tools_ifw"; Some ""; Some ""; Some ""; Some ""; Some ""].
Proof.
  pose proof (absent_fields_default "install-qt" "5.11.3" "windows" "desktop"
    "win64_msvc2015_64" "msvc2015_64"
    (with_tool_options {[ "TOOL1_ARGS" := "tools_ifw" ]} defaults) "3.9")
    as (_ & Htotal & Hvars).
  destruct (Htotal eq_refl) as [vars Hv].
  exists vars. split; [exact Hv|].
  destruct (Hvars vars Hv)
    as (_ & Hmodule & _ & _ & _ & _ & _ & _ & _ & _ & Htool).
  split; [exact (Hmodule eq_refl)|exact (Htool "tools_ifw" eq_refl)].
Defined.

(** ** The matrix of a platform *)

Lemma product_length {A B} (xs : list A) (ys : list B) :
  length (Py.product xs ys) = length xs * length ys.
Proof.
  unfold Py.product. induction xs as [|x xs IH]; [reflexivity|].
  cbn [flat_map]. rewrite length_app, length_map, IH. reflexivity.
Qed.

(** Storing under a key that the dictionary lacks appends the entry. *)
Lemma setitem_fresh {V} (d : OrderedDict.t V) (k : string) (v : V) :
  k ∉ OrderedDict.keys d -> OrderedDict.setitem d k v = (d ++ [(k, v)])%list.
Proof.
  induction d as [|[k' v'] d IH]; intros Hk; [reflexivity|].
  cbn [OrderedDict.keys map fst] in Hk.
  apply not_elem_of_cons in Hk as [Hne Hk].
  cbn [OrderedDict.setitem].
  destruct (String.eqb_spec k' k) as [->|_]; [done|].
  cbn [app]. f_equal. by apply IH.
Qed.

(** The loop over pairs with distinct keys, none of them in the dictionary
    it starts from, appends one entry for each pair, in the order of the
    pairs. *)
Lemma matrix_loop_distinct (pairs : list (BuildJob * string)) :
  forall d0,
    Forall (fun p => exists folder, mingw_folder p.1 = Py.Ok folder) pairs ->
    NoDup (OrderedDict.keys d0 ++ map (fun p => matrix_key p.1) pairs)%list ->
    exists d,
      matrix_loop pairs d0 = Py.Ok (d0 ++ d)%list /\ Forall2 entry_of pairs d.
Proof.
  induction pairs as [|[j pv] pairs IH]; intros d0 Hok Hnd.
  - exists []. split; [|constructor]. cbn. by rewrite app_nil_r.
  - apply Forall_cons in Hok as [[folder Hj] Hok].
    destruct (variables_total j pv folder Hj) as [vars Hvars].
    cbn [matrix_loop]. rewrite Hvars. cbn [mbind result_bind Py.bind].
    cbn [map fst] in Hnd.
    rewrite setitem_fresh.
    2:{ apply NoDup_app in Hnd as (_ & Hdisj & _).
        intros Hin. apply (Hdisj _ Hin). by left. }
    destruct (IH (d0 ++ [(matrix_key j, vars)])%list Hok) as (d & Hd & Hall).
    { unfold OrderedDict.keys in *. rewrite map_app, <- app_assoc. exact Hnd. }
    exists ((matrix_key j, vars) :: d). split.
    + rewrite Hd, <- app_assoc. reflexivity.
    + constructor; [by split|exact Hall].
Qed.

Lemma entries_keys (pairs : list (BuildJob * string))
    (d : OrderedDict.t (OrderedDict.t string)) :
  Forall2 entry_of pairs d ->
  OrderedDict.keys d = map (fun p => matrix_key p.1) pairs.
Proof.
  induction 1 as [|p kv pairs d [Hk _] _ IH]; [reflexivity|].
  cbn [OrderedDict.keys map]. rewrite Hk. f_equal. exact IH.
Qed.

(** The matrix of the shipped catalog, whatever mirrors were chosen: two
    jobs, one interpreter version, two entries. *)
Lemma windows_matrix_entries (mirror1 mirror2 : string) :
  exists d,
    matrix_dictionary (windows_desktop_jobs mirror1 mirror2) python_versions
      = Py.Ok d /\
    Forall2 entry_of
      (Py.product (windows_desktop_jobs mirror1 mirror2) python_versions) d /\
    OrderedDict.keys d =
      ["install-qt 5.11.3 win64_msvc2015_64 for desktop (qttools qtbase qtwinextras qtmultimedia)";
       "install-qt 5.11.3 win32_mingw53 for desktop (qttools qtbase qtwinextras qtmultimedia)"].
Proof.
  destruct (matrix_loop_distinct
    (Py.product (windows_desktop_jobs mirror1 mirror2) python_versions)
    OrderedDict.empty) as (d & Hd & Hall).
  - repeat constructor; eexists; reflexivity.
  - vm_compute. apply NoDup_cons. split; [|apply NoDup_singleton].
    rewrite list_elem_of_singleton. discriminate.
  - exists d. split; [exact Hd|]. split; [exact Hall|].
    by rewrite (entries_keys _ _ Hall).
Qed.

(** ** json.dumps *)

Lemma contains_join (c : ascii) (sep : string) (parts : list string) :
  contains c sep = false ->
  Forall (fun p => contains c p = false) parts ->
  contains c (Py.str_join sep parts) = false.
Proof.
  intros Hsep. induction 1 as [|p ps Hp Hps IH]; [reflexivity|].
  cbn [Py.str_join]. destruct ps as [|q ps]; [exact Hp|].
  by rewrite !contains_app, Hp, Hsep, IH.
Qed.

Lemma escape_char_no_newline (c : ascii) :
  contains "010"%char (Json.escape_char c) = false.
Proof. destruct c as [[] [] [] [] [] [] [] []]; reflexivity. Qed.

Lemma encode_no_newline (s : string) :
  contains "010"%char (Json.encode_basestring_ascii s) = false.
Proof.
  unfold Json.encode_basestring_ascii. rewrite !contains_app.
  assert (contains "010"%char (Json.escape s) = false) as ->; [|reflexivity].
  induction s as [|c s IH]; [reflexivity|].
  cbn [Json.escape]. by rewrite contains_app, escape_char_no_newline, IH.
Qed.

(** The text that [json.dumps] returns has no newline: it is one line. *)
Lemma dumps_no_newline : forall v, contains "010"%char (Json.dumps v) = false.
Proof.
  fix IH 1. intros [s|members].
  - apply encode_no_newline.
  - cbn [Json.dumps]. rewrite !contains_app.
    rewrite contains_join; [reflexivity|reflexivity|].
    induction members as [|[k x] members IHm]; constructor; [|exact IHm].
    by rewrite !contains_app, encode_no_newline, IH.
Qed.

(** ** The script *)

Lemma lines_of_line (l rest : string) :
  contains "010"%char l = false ->
  lines_of (l +:+ newline +:+ rest) = l :: lines_of rest.
Proof.
  induction l as [|c l IH]; intros H; [reflexivity|].
  cbn [contains] in H. apply orb_false_iff in H as [Hc Hl].
  rewrite str_app_cons. cbn [lines_of]. by rewrite Hc, (IH Hl).
Qed.

(** [secrets.choice(MIRRORS)] returns one of the mirrors. *)
Lemma mirror_choice_ok (e : nat -> nat) (k : nat) :
  exists m, mirror_choice e k = Py.Ok m /\ m ∈ MIRRORS.
Proof.
  unfold mirror_choice, Py.getitem.
  pose proof (Nat.mod_upper_bound (e k) (length MIRRORS)) as Hlt.
  destruct (MIRRORS !! (e k mod length MIRRORS)) as [m|] eqn:E.
  - exists m. split; [reflexivity|]. by eapply list_elem_of_lookup_2.
  - apply lookup_ge_None in E. cbn in *. lia.
Qed.

(** A run of the script: two mirrors are drawn, the matrix of the Windows
    platform is built, and four lines are printed. *)
Lemma script_run (linux mac : list BuildJob) (e : nat -> nat) :
  exists m1 m2 d,
    mirror_choice e 0 = Py.Ok m1 /\
    mirror_choice e 1 = Py.Ok m2 /\
    matrix_dictionary (windows_desktop_jobs m1 m2) python_versions = Py.Ok d /\
    script linux mac (boot e) =
      (Py.Ok tt,
       {| entropy := e; drawn := 2;
          stdout :=
            "Setting Variables below" +:+ newline +:+
            set_variable "windows" (Json.dumps (Json.of_matrix d)) +:+ newline +:+
            set_variable "linux" "" +:+ newline +:+
            set_variable "mac" "" +:+ newline |}).
Proof.
  destruct (mirror_choice_ok e 0) as (m1 & H1 & _).
  destruct (mirror_choice_ok e 1) as (m2 & H2 & _).
  destruct (windows_matrix_entries m1 m2) as (d & Hd & _).
  exists m1, m2, d. split; [exact H1|]. split; [exact H2|]. split; [exact Hd|].
  unfold script, boot, Prog.bind, Prog.choice, Prog.lift, Prog.print.
  unfold mirror_choice in H1, H2.
  cbn [MIRRORS entropy drawn stdout]. rewrite H1.
  cbn [MIRRORS entropy drawn stdout]. rewrite H2.
  cbn [app all_platform_build_jobs matrices_loop build_jobs platform].
  rewrite Hd. cbn [mbind result_bind Py.bind mret result_ret].
  unfold Py.dict_getitem. rewrite lookup_insert_eq.
  cbn [entropy drawn stdout]. rewrite !str_app_assoc. reflexivity.
Qed.

(** The four lines of the text that a run leaves on standard output. *)
Lemma script_lines (d : OrderedDict.t (OrderedDict.t string)) (w : World) :
  stdout w =
    "Setting Variables below" +:+ newline +:+
    set_variable "windows" (Json.dumps (Json.of_matrix d)) +:+ newline +:+
    set_variable "linux" "" +:+ newline +:+
    set_variable "mac" "" +:+ newline ->
  lines_of (stdout w) =
    ["Setting Variables below";
     "##vso[task.setVariable variable=windows;isOutput=true]"
       +:+ Json.dumps (Json.of_matrix d);
     "##vso[task.setVariable variable=linux;isOutput=true]";
     "##vso[task.setVariable variable=mac;isOutput=true]"].
Proof.
  intros ->.
  rewrite lines_of_line by reflexivity.
  rewrite lines_of_line.
  2:{ unfold set_variable. rewrite !contains_app, dumps_no_newline. reflexivity. }
  rewrite lines_of_line by reflexivity.
  rewrite <- (str_app_nil_r newline), lines_of_line by reflexivity.
  reflexivity.
Qed.

(** C2. Two runs of the script in which [secrets.choice] returned the same
    mirrors end the same way and write the same text, byte for byte, to
    standard output, whatever else the entropy held. *)
Theorem script_deterministic (e1 e2 : nat -> nat) :
  mirror_choice e1 0 = mirror_choice e2 0 ->
  mirror_choice e1 1 = mirror_choice e2 1 ->
  (run_script e1).1 = (run_script e2).1 /\
  stdout (run_script e1).2 = stdout (run_script e2).2.
Proof.
  intros H0 H1. unfold run_script.
  destruct (script_run [] [] e1) as (a1 & a2 & d & Ha1 & Ha2 & Hd & ->).
  destruct (script_run [] [] e2) as (b1 & b2 & d' & Hb1 & Hb2 & Hd' & ->).
  rewrite Ha1, Hb1 in H0. rewrite Ha2, Hb2 in H1.
  injection H0 as ->. injection H1 as ->.
  rewrite Hd in Hd'. injection Hd' as ->.
  split; reflexivity.
Qed.

Lemma script_deterministic_witness :
  stdout (run_script (fun _ => 0)).2 = stdout (run_script (fun k => 3 + 3 * k)).2.
Proof.
  apply (script_deterministic (fun _ => 0) (fun k => 3 + 3 * k)); reflexivity.
Defined.

(** The order of the printed mapping is the order of insertion: the keys of
    the matrix follow the catalog, and the variables of every entry follow
    the source. *)
Lemma matrix_order (mirror1 mirror2 : string)
    (d : OrderedDict.t (OrderedDict.t string)) :
  matrix_dictionary (windows_desktop_jobs mirror1 mirror2) python_versions
    = Py.Ok d ->
  OrderedDict.keys d
    = map matrix_key (windows_desktop_jobs mirror1 mirror2) /\
  Forall (fun entry => OrderedDict.keys entry.2 = variable_names) d.
Proof.
  intros Hd.
  destruct (windows_matrix_entries mirror1 mirror2) as (d' & Hd' & Hall & Hkeys).
  rewrite Hd in Hd'. injection Hd' as <-.
  split; [exact Hkeys|].
  clear Hd Hkeys. induction Hall as [|[j pv] [k vars] ps d [_ Hv] _ IH];
    constructor; [|exact IH].
  apply variables_inv in Hv as (? & ? & ? & ? & _ & _ & ->). reflexivity.
Qed.

(** C3, as the claim words it, fails: the script writes four lines, the
    first of which is not a [##vso] line. *)
Lemma script_prints_four_lines :
  let out := lines_of (stdout (run_script (fun _ => 0)).2) in
  length out <> 3 /\ out !! 0 = Some "Setting Variables below".
Proof. vm_compute. split; [discriminate|reflexivity]. Qed.

(** C3, amended. The script ends normally and writes four lines: the line
    [Setting Variables below], and one line for each of [windows], [linux]
    and [mac], of the form
    [##vso[task.setVariable variable=<name>;isOutput=true]<payload>].  The
    payload of [windows] is the JSON object of the matrix built from the
    catalog with the mirrors drawn; the payload of [linux] and of [mac] is
    the empty string. *)
Theorem script_output (e : nat -> nat) :
  exists m1 m2 d members,
    mirror_choice e 0 = Py.Ok m1 /\
    mirror_choice e 1 = Py.Ok m2 /\
    matrix_dictionary (windows_desktop_jobs m1 m2) python_versions = Py.Ok d /\
    Json.of_matrix d = Json.JObject members /\
    length members = 2 /\
    (run_script e).1 = Py.Ok tt /\
    lines_of (stdout (run_script e).2) =
      ["Setting Variables below";
       "##vso[task.setVariable variable=windows;isOutput=true]"
         +:+ Json.dumps (Json.JObject members);
       "##vso[task.setVariable variable=linux;isOutput=true]";
       "##vso[task.setVariable variable=mac;isOutput=true]"].
Proof.
  unfold run_script.
  destruct (script_run [] [] e) as (m1 & m2 & d & H1 & H2 & Hd & Hrun).
  exists m1, m2, d, (map (fun '(k, vars) => (k, Json.of_variables vars)) d).
  split; [exact H1|]. split; [exact H2|]. split; [exact Hd|].
  split; [reflexivity|]. split.
  - destruct (windows_matrix_entries m1 m2) as (d' & Hd' & Hall & _).
    rewrite Hd in Hd'. injection Hd' as <-.
    rewrite length_map, <- (Forall2_length _ _ _ Hall). reflexivity.
  - rewrite Hrun. split; [reflexivity|].
    by apply (script_lines d).
Qed.

(** C10. The contents of [linux_build_jobs] and [mac_build_jobs] do not
    reach the output: only the Windows platform is registered, the run is
    the run of the shipped script, and the lines of [linux] and [mac] carry
    the empty payload. *)
Theorem linux_mac_payload_empty (linux mac : list BuildJob) (e : nat -> nat) :
  (forall windows, map platform (all_platform_build_jobs windows) = ["windows"]) /\
  script linux mac (boot e) = run_script e /\
  exists windows_line,
    lines_of (stdout (script linux mac (boot e)).2) =
      ["Setting Variables below";
       windows_line;
       "##vso[task.setVariable variable=linux;isOutput=true]";
       "##vso[task.setVariable variable=mac;isOutput=true]"].
Proof.
  split; [reflexivity|]. split; [reflexivity|].
  destruct (script_run linux mac e) as (m1 & m2 & d & _ & _ & _ & Hrun).
  eexists. rewrite Hrun. by apply (script_lines d).
Qed.

(** * Further properties of the code *)

(** ** OrderedDict *)

Lemma get_setitem_eq {V} (d : OrderedDict.t V) (k : string) (v : V) :
  OrderedDict.get (OrderedDict.setitem d k v) k = Some v.
Proof.
  induction d as [|[k' v'] d IH]; cbn [OrderedDict.setitem OrderedDict.get].
  - by rewrite String.eqb_refl.
  - destruct (String.eqb k' k) eqn:E; cbn [OrderedDict.get]; rewrite E;
      [reflexivity|exact IH].
Qed.

Lemma get_setitem_ne {V} (d : OrderedDict.t V) (k k' : string) (v : V) :
  k <> k' ->
  OrderedDict.get (OrderedDict.setitem d k v) k' = OrderedDict.get d k'.
Proof.
  intros Hne.
  induction d as [|[k0 v0] d IH]; cbn [OrderedDict.setitem OrderedDict.get].
  - by apply String.eqb_neq in Hne as ->.
  - destruct (String.eqb_spec k0 k) as [->|_]; cbn [OrderedDict.get].
    + by apply String.eqb_neq in Hne as ->.
    + by rewrite IH.
Qed.

Lemma setitem_keys_present {V} (d : OrderedDict.t V) (k : string) (v : V) :
  k ∈ OrderedDict.keys d ->
  OrderedDict.keys (OrderedDict.setitem d k v) = OrderedDict.keys d.
Proof.
  induction d as [|[k' v'] d IH]; intros Hk; [by apply elem_of_nil in Hk|].
  cbn [OrderedDict.setitem].
  destruct (String.eqb_spec k' k) as [->|Hne]; [reflexivity|].
  cbn [OrderedDict.keys map fst] in Hk |- *.
  apply elem_of_cons in Hk as [->|Hk]; [done|].
  f_equal. by apply IH.
Qed.

Lemma setitem_keys {V} (d : OrderedDict.t V) (k : string) (v : V) :
  OrderedDict.keys (OrderedDict.setitem d k v) =
    if decide (k ∈ OrderedDict.keys d) then OrderedDict.keys d
    else (OrderedDict.keys d ++ [k])%list.
Proof.
  destruct (decide (k ∈ OrderedDict.keys d)) as [Hin|Hout].
  - by apply setitem_keys_present.
  - rewrite setitem_fresh by exact Hout.
    unfold OrderedDict.keys. by rewrite map_app.
Qed.

Lemma setitem_setitem {V} (d : OrderedDict.t V) (k : string) (v1 v2 : V) :
  OrderedDict.setitem (OrderedDict.setitem d k v1) k v2
    = OrderedDict.setitem d k v2.
Proof.
  induction d as [|[k' v'] d IH]; cbn [OrderedDict.setitem].
  - by rewrite String.eqb_refl.
  - destruct (String.eqb k' k) eqn:E; cbn [OrderedDict.setitem]; rewrite E;
      [reflexivity|by rewrite IH].
Qed.

Lemma setitem_NoDup {V} (d : OrderedDict.t V) (k : string) (v : V) :
  NoDup (OrderedDict.keys d) -> NoDup (OrderedDict.keys (OrderedDict.setitem d k v)).
Proof.
  intros Hnd. rewrite setitem_keys. case_decide; [exact Hnd|].
  apply NoDup_app. split; [exact Hnd|]. split; [|apply NoDup_singleton].
  intros x Hx ->%list_elem_of_singleton. done.
Qed.

(** ** The matrix loop, on any catalog *)

Lemma matrix_loop_app (p1 p2 : list (BuildJob * string)) :
  forall d0,
    matrix_loop (p1 ++ p2) d0 = matrix_loop p1 d0 ≫= matrix_loop p2.
Proof.
  induction p1 as [|[j pv] p1 IH]; intros d0; [reflexivity|].
  cbn [app matrix_loop].
  destruct (variables j pv) as [vars|e]; [|reflexivity].
  cbn [mbind result_bind Py.bind]. apply IH.
Qed.

(** What the loop keeps, from any dictionary with distinct keys. *)
Lemma matrix_loop_invariant (pairs : list (BuildJob * string)) :
  forall d0 d,
    matrix_loop pairs d0 = Py.Ok d ->
    NoDup (OrderedDict.keys d0) ->
    NoDup (OrderedDict.keys d) /\
    (forall k, k ∈ OrderedDict.keys d <->
       k ∈ OrderedDict.keys d0 \/ exists p, p ∈ pairs /\ k = matrix_key p.1) /\
    length d <= length d0 + length pairs.
Proof.
  induction pairs as [|[j pv] pairs IH]; intros d0 d Hloop Hnd.
  - cbn in Hloop. injection Hloop as <-. split; [exact Hnd|]. split; [|lia].
    intros k. split; [by left|]. intros [H|(p & Hp & _)]; [exact H|].
    by apply elem_of_nil in Hp.
  - cbn [matrix_loop] in Hloop.
    destruct (variables j pv) as [vars|e]; [|discriminate].
    cbn [mbind result_bind Py.bind] in Hloop.
    destruct (IH _ _ Hloop (setitem_NoDup d0 (matrix_key j) vars Hnd))
      as (Hnd' & Hkeys & Hlen).
    split; [exact Hnd'|]. split.
    + intros k. rewrite Hkeys, setitem_keys. split.
      * intros [Hk|(p & Hp & ->)].
        -- case_decide; [by left|].
           apply elem_of_app in Hk as [Hk|Hk%list_elem_of_singleton]; [by left|].
           right. exists (j, pv). split; [by left|exact Hk].
        -- right. exists p. split; [by right|reflexivity].
      * intros [Hk|(p & Hp & ->)].
        -- left. case_decide; [exact Hk|]. apply elem_of_app. by left.
        -- apply elem_of_cons in Hp as [->|Hp].
           ++ left. cbn [fst]. case_decide; [done|].
              apply elem_of_app. right. by apply list_elem_of_singleton.
           ++ right. by exists p.
    + assert (length (OrderedDict.setitem d0 (matrix_key j) vars) <= S (length d0)).
      { destruct (decide (matrix_key j ∈ OrderedDict.keys d0)) as [Hin|Hout].
        - pose proof (f_equal length (setitem_keys_present d0 _ vars Hin)) as E.
          unfold OrderedDict.keys in E. rewrite !length_map in E. lia.
        - rewrite (setitem_fresh d0 _ vars Hout), length_app. cbn. lia. }
      cbn [length]. lia.
Qed.

(** Pairs with other keys leave the entry of a key as it is. *)
Lemma matrix_loop_get_other (pairs : list (BuildJob * string)) (k : string) :
  forall d0 d,
    matrix_loop pairs d0 = Py.Ok d ->
    Forall (fun p => matrix_key p.1 <> k) pairs ->
    OrderedDict.get d k = OrderedDict.get d0 k.
Proof.
  induction pairs as [|[j pv] pairs IH]; intros d0 d Hloop Hother.
  - cbn in Hloop. by injection Hloop as <-.
  - apply Forall_cons in Hother as [Hj Hother].
    cbn [matrix_loop] in Hloop.
    destruct (variables j pv) as [vars|e]; [|discriminate].
    cbn [mbind result_bind Py.bind] in Hloop.
    rewrite (IH _ _ Hloop Hother). by apply get_setitem_ne.
Qed.

Lemma elem_of_product {A B} (xs : list A) (ys : list B) (x : A) (y : B) :
  (x, y) ∈ Py.product xs ys <-> x ∈ xs /\ y ∈ ys.
Proof.
  unfold Py.product. rewrite list_elem_of_In, in_flat_map. split.
  - intros (x' & Hx & Hy). apply in_map_iff in Hy as (y' & [= -> ->] & Hy).
    split; by apply list_elem_of_In.
  - intros [Hx Hy]. exists x. split; [by apply list_elem_of_In|].
    apply in_map_iff. exists y. split; [reflexivity|by apply list_elem_of_In].
Qed.

Lemma product_nil_r {A B} (xs : list A) : Py.product xs (@nil B) = [].
Proof. unfold Py.product. induction xs as [|x xs IH]; [reflexivity|exact IH]. Qed.

Lemma elem_of_setitem {V} (d : OrderedDict.t V) (k : string) (v : V)
    (entry : string * V) :
  entry ∈ OrderedDict.setitem d k v -> entry ∈ d \/ entry = (k, v).
Proof.
  induction d as [|[k' v'] d IH]; cbn [OrderedDict.setitem].
  - intros ->%list_elem_of_singleton. by right.
  - destruct (String.eqb_spec k' k) as [->|_].
    + intros [->|H]%elem_of_cons; [by right|left; by right].
    + intros [->|H]%elem_of_cons; [left; by left|].
      destruct (IH H) as [H'|H']; [left; by right|by right].
Qed.

(** Every entry that the loop leaves was there before or was derived from
    one of the pairs. *)
Lemma matrix_loop_entries (pairs : list (BuildJob * string)) :
  forall d0 d entry,
    matrix_loop pairs d0 = Py.Ok d ->
    entry ∈ d ->
    entry ∈ d0 \/
    exists p, p ∈ pairs /\ entry.1 = matrix_key p.1 /\
              variables p.1 p.2 = Py.Ok entry.2.
Proof.
  induction pairs as [|[j pv] pairs IH]; intros d0 d entry Hloop Hin.
  - cbn in Hloop. injection Hloop as <-. by left.
  - cbn [matrix_loop] in Hloop.
    destruct (variables j pv) as [vars|e] eqn:Hv; [|discriminate].
    cbn [mbind result_bind Py.bind] in Hloop.
    destruct (IH _ _ _ Hloop Hin) as [H|(p & Hp & Hk & Hvars)].
    + apply elem_of_setitem in H as [H| ->]; [by left|].
      right. exists (j, pv). split; [by left|by split].
    + right. exists p. split; [by right|by split].
Qed.

(** X1. On any catalog and any list of versions, the matrix that the loop
    returns has distinct keys, which are the keys of the jobs (none when
    there is no version); every entry holds the 28 variables of a job of the
    catalog with that key; and there are at most as many entries as pairs. *)
Theorem matrix_dictionary_wellformed (jobs : list BuildJob)
    (versions : list string) (d : OrderedDict.t (OrderedDict.t string)) :
  matrix_dictionary jobs versions = Py.Ok d ->
  NoDup (OrderedDict.keys d) /\
  (forall k, k ∈ OrderedDict.keys d <->
     versions <> [] /\ exists j, j ∈ jobs /\ k = matrix_key j) /\
  (forall entry, entry ∈ d ->
     OrderedDict.keys entry.2 = variable_names /\
     exists j pv, j ∈ jobs /\ pv ∈ versions /\ entry.1 = matrix_key j /\
                  variables j pv = Py.Ok entry.2) /\
  length d <= length jobs * length versions.
Proof.
  unfold matrix_dictionary. intros Hloop.
  destruct (matrix_loop_invariant _ _ _ Hloop (NoDup_nil_2 (A:=string)))
    as (Hnd & Hkeys & Hlen).
  split; [exact Hnd|]. split; [|split].
  - intros k. rewrite Hkeys. split.
    + intros [H|([j pv] & Hp & ->)]; [by apply elem_of_nil in H|].
      apply elem_of_product in Hp as [Hj Hpv]. split.
      * intros ->. by apply elem_of_nil in Hpv.
      * by exists j.
    + intros [Hne (j & Hj & ->)]. right.
      destruct versions as [|pv versions]; [done|].
      exists (j, pv). split; [|reflexivity].
      apply elem_of_product. split; [exact Hj|by left].
  - intros entry Hin.
    destruct (matrix_loop_entries _ _ _ _ Hloop Hin)
      as [H|([j pv] & Hp & Hk & Hv)]; [by apply elem_of_nil in H|].
    cbn [fst snd] in Hk, Hv. split.
    + apply variables_inv in Hv as (? & ? & ? & ? & _ & _ & ->). reflexivity.
    + apply elem_of_product in Hp as [Hj Hpv]. by exists j, pv.
  - rewrite product_length in Hlen. exact Hlen.
Qed.

Lemma matrix_dictionary_wellformed_witness :
  exists d,
    matrix_dictionary (windows_desktop_jobs "" "") ["3.8"; "3.9"] = Py.Ok d /\
    NoDup (OrderedDict.keys d) /\ length d <= 4.
Proof.
  eexists. split; [reflexivity|].
  destruct (matrix_dictionary_wellformed (windows_desktop_jobs "" "")
              ["3.8"; "3.9"] _ eq_refl) as (Hnd & _ & _ & Hlen).
  split; [exact Hnd|exact Hlen].
Defined.

(** X2. Last write wins: the entry of a key holds the variables of the last
    pair of the product that has this key. *)
Theorem matrix_last_write_wins (jobs : list BuildJob) (versions : list string)
    (d : OrderedDict.t (OrderedDict.t string))
    (before after : list (BuildJob * string)) (j : BuildJob) (pv : string) :
  matrix_dictionary jobs versions = Py.Ok d ->
  Py.product jobs versions = (before ++ (j, pv) :: after)%list ->
  Forall (fun p => matrix_key p.1 <> matrix_key j) after ->
  exists vars,
    variables j pv = Py.Ok vars /\
    OrderedDict.get d (matrix_key j) = Some vars.
Proof.
  unfold matrix_dictionary. intros Hloop Hpairs Hafter.
  rewrite Hpairs, matrix_loop_app in Hloop.
  destruct (matrix_loop before OrderedDict.empty) as [d1|e]; [|discriminate].
  cbn [mbind result_bind Py.bind matrix_loop] in Hloop.
  destruct (variables j pv) as [vars|e]; [|discriminate].
  cbn [mbind result_bind Py.bind] in Hloop.
  exists vars. split; [reflexivity|].
  rewrite (matrix_loop_get_other _ _ _ _ Hloop Hafter).
  apply get_setitem_eq.
Qed.

Lemma matrix_last_write_wins_witness :
  exists d vars,
    matrix_dictionary
      [desktop_job "5.11.3" (with_mirror "first" defaults);
       desktop_job "5.11.3" (with_mirror "second" defaults)] ["3.9"] = Py.Ok d /\
    OrderedDict.get d "install-qt 5.11.3 win64_msvc2015_64 for desktop" = Some vars /\
    variables (desktop_job "5.11.3" (with_mirror "second" defaults)) "3.9"
      = Py.Ok vars.
Proof.
  destruct (matrix_last_write_wins
    [desktop_job "5.11.3" (with_mirror "first" defaults);
     desktop_job "5.11.3" (with_mirror "second" defaults)] ["3.9"] _
    [(desktop_job "5.11.3" (with_mirror "first" defaults), "3.9")] []
    (desktop_job "5.11.3" (with_mirror "second" defaults)) "3.9"
    eq_refl eq_refl (Forall_nil_2 _)) as (vars & Hv & Hget).
  eexists. exists vars. split; [reflexivity|]. split; [exact Hget|exact Hv].
Defined.

(** The pairs of one job: whatever the versions before the last, the entry
    of the job ends with the variables of the last version. *)
Lemma matrix_loop_job (j : BuildJob) (folder : string) (versions : list string) :
  forall vl d0,
    last versions = Some vl ->
    mingw_folder j = Py.Ok folder ->
    exists vars,
      variables j vl = Py.Ok vars /\
      matrix_loop (map (fun pv => (j, pv)) versions) d0
        = Py.Ok (OrderedDict.setitem d0 (matrix_key j) vars).
Proof.
  induction versions as [|v versions IH]; intros vl d0 Hlast Hj; [discriminate|].
  destruct (variables_total j v folder Hj) as [vars Hv].
  cbn [map matrix_loop]. rewrite Hv. cbn [mbind result_bind Py.bind].
  destruct versions as [|v' versions].
  - injection Hlast as <-. exists vars. by split.
  - destruct (IH vl (OrderedDict.setitem d0 (matrix_key j) vars) Hlast Hj)
      as (vars' & Hv' & Hloop).
    exists vars'. split; [exact Hv'|].
    rewrite Hloop. by rewrite setitem_setitem.
Qed.

Lemma matrix_loop_jobs (versions : list string) (vl : string)
    (jobs : list BuildJob) :
  last versions = Some vl ->
  forall d0,
    Forall (fun j => exists folder, mingw_folder j = Py.Ok folder) jobs ->
    NoDup (OrderedDict.keys d0 ++ map matrix_key jobs)%list ->
    exists d,
      matrix_loop (Py.product jobs versions) d0 = Py.Ok (d0 ++ d)%list /\
      Forall2 (fun j entry =>
                 entry.1 = matrix_key j /\ variables j vl = Py.Ok entry.2) jobs d.
Proof.
  intros Hlast. induction jobs as [|j jobs IH]; intros d0 Hok Hnd.
  - exists []. split; [|constructor]. cbn. by rewrite app_nil_r.
  - apply Forall_cons in Hok as [[folder Hj] Hok].
    unfold Py.product. cbn [flat_map]. fold (Py.product jobs versions).
    rewrite matrix_loop_app.
    destruct (matrix_loop_job j folder versions vl d0 Hlast Hj)
      as (vars & Hv & ->).
    cbn [mbind result_bind Py.bind]. cbn [map] in Hnd.
    rewrite setitem_fresh.
    2:{ apply NoDup_app in Hnd as (_ & Hdisj & _).
        intros Hin. apply (Hdisj _ Hin). by left. }
    destruct (IH (d0 ++ [(matrix_key j, vars)])%list Hok) as (d & Hd & Hall).
    { unfold OrderedDict.keys in *. rewrite map_app, <- app_assoc. exact Hnd. }
    exists ((matrix_key j, vars) :: d). split.
    + rewrite Hd, <- app_assoc. reflexivity.
    + constructor; [by split|exact Hall].
Qed.

(** C1, as the claim words it, fails: the key does not hold the interpreter
    version, so with the two jobs of the catalog and two versions the four
    pairs give two entries, both with the variables of the second
    version. *)
Lemma matrix_fewer_entries_than_pairs :
  let jobs := windows_desktop_jobs "https://ftp.jaist.ac.jp/pub/qtproject"
                "https://mirrors.dotsrc.org/qtproject" in
  let versions := ["3.8"; "3.9"] in
  exists d,
    matrix_dictionary jobs versions = Py.Ok d /\
    length d <> length jobs * length versions /\
    Forall (fun entry => OrderedDict.get entry.2 "PYTHON_VERSION" = Some "3.9") d.
Proof.
  eexists. split; [vm_compute; reflexivity|].
  split; [discriminate|]. repeat constructor.
Qed.

(** C1, amended. The key does not hold the interpreter version.  With any
    non-empty list of versions, jobs with distinct keys and accepted MinGW
    variants give one entry for each job, in the order of the catalog, under
    the key of the job, and the entry holds the variables of the job and the
    last version of the list; there are as many entries as jobs, which is
    the number of pairs when there is one version. *)
Theorem matrix_one_entry_per_job (jobs : list BuildJob) (versions : list string)
    (vl : string) :
  last versions = Some vl ->
  Forall (fun j => exists folder, mingw_folder j = Py.Ok folder) jobs ->
  NoDup (map matrix_key jobs) ->
  exists d,
    matrix_dictionary jobs versions = Py.Ok d /\
    Forall2 (fun j entry =>
               entry.1 = matrix_key j /\ variables j vl = Py.Ok entry.2) jobs d /\
    length d = length jobs.
Proof.
  intros Hlast Hok Hnd.
  destruct (matrix_loop_jobs versions vl jobs Hlast OrderedDict.empty Hok Hnd)
    as (d & Hd & Hall).
  exists d. split; [exact Hd|]. split; [exact Hall|].
  symmetry. by eapply Forall2_length.
Qed.

Lemma matrix_one_entry_per_job_witness :
  exists d,
    matrix_dictionary (windows_desktop_jobs "" "") ["3.8"; "3.9"; "3.10"]
      = Py.Ok d /\
    length d = 2.
Proof.
  destruct (matrix_one_entry_per_job (windows_desktop_jobs "" "")
              ["3.8"; "3.9"; "3.10"] "3.10") as (d & Hd & _ & Hlen).
  - reflexivity.
  - repeat constructor; eexists; reflexivity.
  - vm_compute. apply NoDup_cons. split; [|apply NoDup_singleton].
    rewrite list_elem_of_singleton. discriminate.
  - exists d. split; [exact Hd|exact Hlen].
Defined.

(** ** Failure of the loop *)

(** [mingw_folder] raises nothing but [TypeError]: when the pattern matches,
    both groups took part in the match. *)
Lemma mingw_folder_TypeError (j : BuildJob) (e : Py.exn) :
  mingw_folder j = Py.Raise e -> e = Py.TypeError.
Proof.
  intros H.
  destruct (Re.match_ mingw_pattern (mingw_variant j)) as [st|] eqn:Hm.
  - apply mingw_pattern_inv in Hm as (d1 & d2 & nl & H1 & H2 & Hnl & Hv).
    rewrite (mingw_folder_match j d1 d2 nl H1 H2 Hnl Hv) in H. discriminate.
  - unfold mingw_folder in H. rewrite Hm in H.
    destruct (mingw_variant j); [discriminate|]. by injection H as <-.
Qed.

Lemma variables_raise_iff (j : BuildJob) (pv : string) (e : Py.exn) :
  variables j pv = Py.Raise e <-> mingw_folder j = Py.Raise e.
Proof.
  split; [apply variables_raise|].
  intros H. unfold variables. by rewrite H.
Qed.

Lemma matrix_loop_raise (pairs : list (BuildJob * string)) :
  forall d0 e,
    matrix_loop pairs d0 = Py.Raise e ->
    exists p, p ∈ pairs /\ variables p.1 p.2 = Py.Raise e.
Proof.
  induction pairs as [|[j pv] pairs IH]; intros d0 e Hloop; [discriminate|].
  cbn [matrix_loop] in Hloop.
  destruct (variables j pv) as [vars|e'] eqn:Hv.
  - cbn [mbind result_bind Py.bind] in Hloop.
    destruct (IH _ _ Hloop) as (p & Hp & Hr). exists p. split; [by right|exact Hr].
  - injection Hloop as ->. exists (j, pv). split; [by left|exact Hv].
Qed.

Lemma matrix_loop_not_ok (pairs : list (BuildJob * string)) :
  forall d0 d p e,
    p ∈ pairs -> variables p.1 p.2 = Py.Raise e ->
    matrix_loop pairs d0 <> Py.Ok d.
Proof.
  induction pairs as [|[j pv] pairs IH]; intros d0 d p e Hp Hr Hloop.
  - by apply elem_of_nil in Hp.
  - cbn [matrix_loop] in Hloop.
    apply elem_of_cons in Hp as [->|Hp].
    + cbn [fst snd] in Hr. rewrite Hr in Hloop. discriminate.
    + destruct (variables j pv) as [vars|e']; [|discriminate].
      cbn [mbind result_bind Py.bind] in Hloop.
      by apply (IH _ _ _ _ Hp Hr Hloop).
Qed.

(** X4. The loop fails fast and only with [TypeError]: it raises exactly when
    there is a version and some job has a MinGW variant that [mingw_folder]
    rejects.  Without versions, or without jobs, it returns the empty
    matrix, whatever the variants. *)
Theorem matrix_dictionary_raises (jobs : list BuildJob) (versions : list string) :
  (forall e, matrix_dictionary jobs versions = Py.Raise e ->
     e = Py.TypeError /\ versions <> [] /\
     exists j, j ∈ jobs /\ mingw_folder j = Py.Raise Py.TypeError) /\
  (forall j e, versions <> [] -> j ∈ jobs -> mingw_folder j = Py.Raise e ->
     matrix_dictionary jobs versions = Py.Raise Py.TypeError) /\
  matrix_dictionary jobs [] = Py.Ok [] /\
  matrix_dictionary [] versions = Py.Ok [].
Proof.
  unfold matrix_dictionary. split; [|split; [|split]].
  - intros e Hloop.
    apply matrix_loop_raise in Hloop as ([j pv] & Hp & Hr).
    apply elem_of_product in Hp as [Hj Hpv].
    apply variables_raise_iff in Hr. cbn [fst] in Hr.
    pose proof (mingw_folder_TypeError _ _ Hr) as ->.
    split; [reflexivity|]. split; [|by exists j].
    intros ->. by apply elem_of_nil in Hpv.
  - intros j e Hne Hj Hr.
    destruct versions as [|pv versions]; [done|].
    assert ((j, pv) ∈ Py.product jobs (pv :: versions)) as Hp.
    { apply elem_of_product. split; [exact Hj|by left]. }
    destruct (matrix_loop (Py.product jobs (pv :: versions)) OrderedDict.empty)
      as [d|e'] eqn:Hloop.
    + exfalso. eapply matrix_loop_not_ok; [exact Hp| |exact Hloop].
      apply variables_raise_iff. exact Hr.
    + apply matrix_loop_raise in Hloop as ([j' pv'] & _ & Hr').
      apply variables_raise_iff, mingw_folder_TypeError in Hr'. by rewrite Hr'.
  - by rewrite product_nil_r.
  - reflexivity.
Qed.

Lemma matrix_dictionary_raises_witness :
  matrix_dictionary [mingw_job "win32_mingw530"; mingw_job "mingw53"] ["3.9"]
    = Py.Raise Py.TypeError.
Proof.
  apply (proj1 (proj2 (matrix_dictionary_raises
    [mingw_job "win32_mingw530"; mingw_job "mingw53"] ["3.9"]))
    (mingw_job "mingw53") Py.TypeError).
  - discriminate.
  - right. left.
  - reflexivity.
Defined.

(** ** mingw_folder, further *)

(** X5. The outcomes of [mingw_folder()] on variants made of code points
    below 256, where [\d] matches [0] to [9] and nothing else: when it
    returns, the variant was empty and so is the result, or the result is
    [mingw<digits>_<digits>] for the two runs of digits of the variant;
    when it raises, it raises [TypeError]. *)
Theorem mingw_folder_outcomes (j : BuildJob) :
  (forall folder, mingw_folder j = Py.Ok folder ->
     (mingw_variant j = "" /\ folder = "") \/
     exists d1 d2 nl,
       digits d1 /\ digits d2 /\ (nl = "" \/ nl = newline) /\
       mingw_variant j = "win" +:+ d1 +:+ "_mingw" +:+ d2 +:+ nl /\
       folder = ("mingw" +:+ d2) +:+ "_" +:+ d1) /\
  (forall e, mingw_folder j = Py.Raise e -> e = Py.TypeError).
Proof.
  split; [|apply mingw_folder_TypeError].
  intros folder H.
  destruct (mingw_variant j) as [|c v] eqn:Hv.
  - left. rewrite (mingw_folder_empty j Hv) in H. by injection H as <-.
  - right.
    destruct (Re.match_ mingw_pattern (mingw_variant j)) as [st|] eqn:Hm.
    + apply mingw_pattern_inv in Hm as (d1 & d2 & nl & H1 & H2 & Hnl & Hshape).
      rewrite (mingw_folder_match j d1 d2 nl H1 H2 Hnl Hshape) in H.
      injection H as <-. exists d1, d2, nl. rewrite <- Hv.
      split; [exact H1|]. split; [exact H2|]. split; [exact Hnl|].
      split; [exact Hshape|reflexivity].
    + rewrite mingw_folder_no_match in H; [discriminate|by rewrite Hv|exact Hm].
Qed.

Lemma mingw_folder_outcomes_witness :
  (mingw_variant (mingw_job "win64_mingw810") = "" /\ "mingw810_64" = "") \/
  exists d1 d2 nl,
    digits d1 /\ digits d2 /\ (nl = "" \/ nl = newline) /\
    mingw_variant (mingw_job "win64_mingw810")
      = "win" +:+ d1 +:+ "_mingw" +:+ d2 +:+ nl /\
    "mingw810_64" = ("mingw" +:+ d2) +:+ "_" +:+ d1.
Proof.
  apply (proj1 (mingw_folder_outcomes (mingw_job "win64_mingw810"))).
  reflexivity.
Defined.

(** X6. One newline at the end of a variant of the shape is ignored: the
    folder is the folder of the variant without it. *)
Theorem mingw_folder_ignores_final_newline (j j' : BuildJob) :
  mingw_shape (mingw_variant j) ->
  mingw_variant j' = mingw_variant j +:+ newline ->
  mingw_folder j' = mingw_folder j /\ exists folder, mingw_folder j = Py.Ok folder.
Proof.
  intros (d1 & d2 & H1 & H2 & Hv) Hv'.
  rewrite (mingw_folder_match j d1 d2 "" H1 H2); [|by left|by rewrite str_app_nil_r].
  rewrite (mingw_folder_match j' d1 d2 newline H1 H2); [by eauto|by right|].
  rewrite Hv', Hv. by rewrite !str_app_assoc.
Qed.

Lemma mingw_folder_ignores_final_newline_witness :
  mingw_folder (mingw_job ("win64_mingw810" +:+ newline))
    = mingw_folder (mingw_job "win64_mingw810").
Proof.
  apply (mingw_folder_ignores_final_newline
           (mingw_job "win64_mingw810")
           (mingw_job ("win64_mingw810" +:+ newline))).
  - exists "64", "810".
    split; [split; [discriminate|reflexivity]|].
    split; [split; [discriminate|reflexivity]|reflexivity].
  - reflexivity.
Defined.

(** A run of digits ends where the first other character stands. *)
Lemma digits_run_unique (a a' t t' : string) (c c' : ascii) :
  all_digits a = true -> all_digits a' = true ->
  Re.is_digit c = false -> Re.is_digit c' = false ->
  a +:+ String c t = a' +:+ String c' t' ->
  a = a' /\ String c t = String c' t'.
Proof.
  revert a'. induction a as [|x a IH]; intros [|x' a'] Ha Ha' Hc Hc' E.
  - done.
  - rewrite str_app_nil_l, str_app_cons in E. injection E as -> _.
    cbn [all_digits] in Ha'. rewrite Hc in Ha'. discriminate.
  - rewrite str_app_nil_l, str_app_cons in E. injection E as -> _.
    cbn [all_digits] in Ha. rewrite Hc' in Ha. discriminate.
  - rewrite !str_app_cons in E. injection E as -> E.
    cbn [all_digits] in Ha, Ha'.
    apply andb_true_iff in Ha as [_ Ha]. apply andb_true_iff in Ha' as [_ Ha'].
    destruct (IH a' Ha Ha' Hc Hc' E) as [-> E']. by split.
Qed.

(** X7. On variants of the shape, [mingw_folder()] loses nothing: two
    variants with the same folder are the same variant. *)
Theorem mingw_folder_injective (j j' : BuildJob) :
  mingw_shape (mingw_variant j) ->
  mingw_shape (mingw_variant j') ->
  mingw_folder j = mingw_folder j' ->
  mingw_variant j = mingw_variant j'.
Proof.
  intros (d1 & d2 & H1 & H2 & Hv) (e1 & e2 & G1 & G2 & Hv') E.
  rewrite (mingw_folder_match j d1 d2 "" H1 H2) in E;
    [|by left|by rewrite str_app_nil_r].
  rewrite (mingw_folder_match j' e1 e2 "" G1 G2) in E;
    [|by left|by rewrite str_app_nil_r].
  injection E as E. rewrite ?str_app_assoc, ?str_app_nil_l in E.
  destruct H1 as [_ H1], H2 as [_ H2], G1 as [_ G1], G2 as [_ G2].
  change ("_" +:+ d1) with (String "_"%char d1) in E.
  change ("_" +:+ e1) with (String "_"%char e1) in E.
  apply digits_run_unique in E as [-> [= ->]]; [|done..].
  by rewrite Hv, Hv'.
Qed.

Lemma mingw_folder_injective_witness :
  mingw_variant (mingw_job "win64_mingw810")
    = mingw_variant (desktop_job "6.2.0" (with_mingw_variant "win64_mingw810" defaults)).
Proof.
  apply mingw_folder_injective.
  - exists "64", "810".
    split; [split; [discriminate|reflexivity]|].
    split; [split; [discriminate|reflexivity]|reflexivity].
  - exists "64", "810".
    split; [split; [discriminate|reflexivity]|].
    split; [split; [discriminate|reflexivity]|reflexivity].
  - reflexivity.
Defined.

(** ** Variables, further *)

(** X8. [WIN_AUTODESK_QT_BINDIR] is [WIN_QT_BINDIR] unless the job has a
    non-empty [autodesk_arch_folder], which then stands for the architecture
    directory.  The forward-slash path of [autodesk_qt_bindir] is not among
    the variables. *)
Theorem autodesk_bindir (j : BuildJob) (pv : string) (vars : OrderedDict.t string) :
  variables j pv = Py.Ok vars ->
  (Py.truthy (autodesk_arch_folder j) = false ->
     OrderedDict.get vars "WIN_AUTODESK_QT_BINDIR"
       = OrderedDict.get vars "WIN_QT_BINDIR") /\
  (forall folder, autodesk_arch_folder j = Some folder -> folder <> "" ->
     OrderedDict.get vars "WIN_AUTODESK_QT_BINDIR"
       = Some (Py.str_join "\" [out_dir "\" j; version_dir j; folder; "bin"])) /\
  OrderedDict.get vars "AUTODESK_QT_BINDIR" = None.
Proof.
  intros (mingw & first & second & rest & _ & _ & ->)%variables_inv.
  cbn [OrderedDict.get String.eqb Ascii.eqb Bool.eqb].
  unfold win_autodesk_qt_bindir, autodesk_qt_bindir, win_qt_bindir, qt_bindir.
  split; [|split; [|reflexivity]].
  - destruct (autodesk_arch_folder j) as [[|c f]|]; [reflexivity|discriminate|reflexivity].
  - intros folder -> Hne. destruct folder as [|c f]; [done|reflexivity].
Qed.

Lemma autodesk_bindir_witness :
  exists vars,
    variables (desktop_job "6.5.0" defaults) "3.9" = Py.Ok vars /\
    OrderedDict.get vars "WIN_AUTODESK_QT_BINDIR"
      = OrderedDict.get vars "WIN_QT_BINDIR".
Proof.
  eexists. split; [reflexivity|].
  apply (proj1 (autodesk_bindir (desktop_job "6.5.0" defaults) "3.9" _ eq_refl)).
  reflexivity.
Defined.

(** [split] then [join] gives the text back, and no part holds the
    separator. *)
Lemma str_split_join (sep : ascii) (s : string) :
  Py.str_join (String sep "") (Py.str_split sep s) = s.
Proof.
  induction s as [|c s IH]; [reflexivity|].
  cbn [Py.str_split]. destruct (Ascii.eqb_spec c sep) as [->|Hne].
  - destruct (Py.str_split sep s) as [|x l] eqn:E;
      [by apply str_split_nonempty in E|].
    cbn [Py.str_join] in IH |- *. rewrite IH. reflexivity.
  - destruct (Py.str_split sep s) as [|h [|x l]] eqn:E;
      [by apply str_split_nonempty in E| |].
    + cbn [Py.str_join] in IH |- *. by rewrite IH.
    + cbn [Py.str_join] in IH |- *. rewrite str_app_cons. by rewrite IH.
Qed.

Lemma str_split_parts (sep : ascii) (s : string) :
  Forall (fun part => contains sep part = false) (Py.str_split sep s).
Proof.
  induction s as [|c s IH]; [by repeat constructor|].
  cbn [Py.str_split]. destruct (Ascii.eqb c sep) eqn:Hc.
  - by constructor.
  - destruct (Py.str_split sep s) as [|h t].
    + repeat constructor. cbn [contains]. by rewrite Hc.
    + apply Forall_cons in IH as [Hh Ht]. constructor; [|exact Ht].
      cbn [contains]. by rewrite Hc, Hh.
Qed.

(** X9. Whatever the toolchain field holds, [EMSDK_VERSION] is its text
    before the first [@] and [EMSDK_TAG] the text between the first [@] and
    the next one of the field followed by [@main]: neither holds an [@],
    and what follows the tag is empty or starts with [@]. *)
Theorem emsdk_version_parts (j : BuildJob) (pv : string)
    (vars : OrderedDict.t string) :
  variables j pv = Py.Ok vars ->
  exists version tag rest,
    OrderedDict.get vars "EMSDK_VERSION" = Some version /\
    OrderedDict.get vars "EMSDK_TAG" = Some tag /\
    contains "@"%char version = false /\
    contains "@"%char tag = false /\
    emsdk_version j +:+ "@main" = version +:+ "@" +:+ tag +:+ rest /\
    (rest = "" \/ exists r, rest = "@" +:+ r).
Proof.
  intros (mingw & first & second & tl & _ & Hs & ->)%variables_inv.
  cbn [OrderedDict.get String.eqb Ascii.eqb Bool.eqb].
  pose proof (str_split_parts "@"%char (emsdk_version j +:+ "@main")) as Hparts.
  pose proof (str_split_join "@"%char (emsdk_version j +:+ "@main")) as Hjoin.
  rewrite Hs in Hparts, Hjoin.
  apply Forall_cons in Hparts as [Hfirst Hparts].
  apply Forall_cons in Hparts as [Hsecond _].
  exists first, second.
  destruct tl as [|x l].
  - exists "". repeat split; [exact Hfirst|exact Hsecond| |by left].
    rewrite <- Hjoin. cbn [Py.str_join]. by rewrite str_app_nil_r.
  - exists ("@" +:+ Py.str_join "@" (x :: l)).
    repeat split; [exact Hfirst|exact Hsecond| |right; by eexists].
    rewrite <- Hjoin. reflexivity.
Qed.

Lemma emsdk_version_parts_witness :
  exists vars version tag rest,
    variables (desktop_job "6.5.0" (with_emsdk_version "sdk@" defaults)) "3.9"
      = Py.Ok vars /\
    OrderedDict.get vars "EMSDK_TAG" = Some tag /\
    "sdk@" +:+ "@main" = version +:+ "@" +:+ tag +:+ rest.
Proof.
  eexists.
  destruct (emsdk_version_parts
    (desktop_job "6.5.0" (with_emsdk_version "sdk@" defaults)) "3.9" _ eq_refl)
    as (version & tag & rest & _ & Htag & _ & _ & Heq & _).
  exists version, tag, rest. split; [reflexivity|]. split; [exact Htag|exact Heq].
Defined.

(** ** The outer loop *)

Lemma matrices_loop_lookup (platforms : list PlatformBuildJobs) :
  forall m0 m name,
    matrices_loop platforms m0 = Py.Ok m ->
    (is_Some (m !! name) <->
     is_Some (m0 !! name) \/ name ∈ map platform platforms).
Proof.
  induction platforms as [|p platforms IH]; intros m0 m name Hloop.
  - cbn in Hloop. injection Hloop as <-. split; [by left|].
    intros [H|H]; [exact H|by apply elem_of_nil in H].
  - cbn [matrices_loop] in Hloop.
    destruct (matrix_dictionary (build_jobs p) python_versions) as [d|e];
      [|discriminate].
    cbn [mbind result_bind Py.bind] in Hloop.
    rewrite (IH _ _ name Hloop). cbn [map]. rewrite elem_of_cons.
    destruct (decide (platform p = name)) as [<-|Hne].
    + rewrite lookup_insert_eq. split; [intros _|intros _; left; by eexists].
      right. by left.
    + rewrite lookup_insert_ne by exact Hne. split.
      * intros [H|H]; [by left|right; by right].
      * intros [H|[H|H]]; [by left|congruence|by right].
Qed.

(** X10. After the outer loop, [matrices] has an entry for the platforms
    that were registered and for no other name: reading it under another
    name raises [KeyError]. *)
Theorem matrices_keys (platforms : list PlatformBuildJobs)
    (m : gmap string (OrderedDict.t (OrderedDict.t string))) (name : string) :
  matrices_loop platforms ∅ = Py.Ok m ->
  (name ∈ map platform platforms -> exists d, Py.dict_getitem m name = Py.Ok d) /\
  (name ∉ map platform platforms -> Py.dict_getitem m name = Py.Raise Py.KeyError).
Proof.
  intros Hloop. pose proof (matrices_loop_lookup _ _ _ name Hloop) as H.
  unfold Py.dict_getitem. split.
  - intros Hin. destruct (proj2 H (or_intror Hin)) as [d ->]. by exists d.
  - intros Hout. destruct (m !! name) as [d|] eqn:E; [|reflexivity].
    destruct (proj1 H (ex_intro _ d eq_refl)) as [[? Hm]|Hin]; [|done].
    by rewrite lookup_empty in Hm.
Qed.

Lemma matrices_keys_witness :
  exists m,
    matrices_loop (all_platform_build_jobs (windows_desktop_jobs "" "")) ∅
      = Py.Ok m /\
    Py.dict_getitem m "linux" = Py.Raise Py.KeyError.
Proof.
  eexists. split; [reflexivity|].
  apply (proj2 (matrices_keys
    (all_platform_build_jobs (windows_desktop_jobs "" "")) _ "linux" eq_refl)).
  cbn. rewrite list_elem_of_singleton. discriminate.
Defined.

(** ** The printed payload *)






Lemma unescape_escape_char (c : ascii) (rest : string) :
  unescape (Json.escape_char c +:+ rest) = String c (unescape rest).
Proof. destruct c as [[] [] [] [] [] [] [] []]; reflexivity. Qed.

Lemma unescape_escape (s t : string) :
  unescape (Json.escape s +:+ t) = s +:+ unescape t.
Proof.
  induction s as [|c s IH]; [reflexivity|].
  cbn [Json.escape]. rewrite str_app_assoc, unescape_escape_char, IH.
  reflexivity.
Qed.

Lemma str_app_length (a b : string) :
  String.length (a +:+ b) = String.length a + String.length b.
Proof.
  induction a as [|x a IH]; [reflexivity|].
  rewrite str_app_cons. cbn [String.length]. by rewrite IH.
Qed.

Lemma str_app_inj_r (a b t : string) : a +:+ t = b +:+ t -> a = b.
Proof.
  revert b. induction a as [|x a IH]; intros [|y b] E.
  - reflexivity.
  - apply (f_equal String.length) in E.
    rewrite str_app_nil_l, str_app_cons in E. cbn [String.length] in E.
    rewrite str_app_length in E. lia.
  - apply (f_equal String.length) in E.
    rewrite str_app_nil_l, str_app_cons in E. cbn [String.length] in E.
    rewrite str_app_length in E. lia.
  - rewrite !str_app_cons in E. injection E as -> E. f_equal. by apply IH.
Qed.

(** X12. Among the strings made of code points below 256, the JSON text
    of a string determines the string: two different ones never have the
    same encoding, so a consumer can read such a key or value back as it
    was. *)
Theorem encode_basestring_ascii_injective (s1 s2 : string) :
  s1 <> s2 ->
  Json.encode_basestring_ascii s1 <> Json.encode_basestring_ascii s2.
Proof.
  unfold Json.encode_basestring_ascii. intros Hne E. apply Hne.
  apply (inj (String.app Json.quote)) in E.
  apply (f_equal unescape) in E. rewrite !unescape_escape in E.
  by apply str_app_inj_r in E.
Qed.

Lemma encode_basestring_ascii_injective_witness :
  Json.encode_basestring_ascii "C:\Qt" <> Json.encode_basestring_ascii "C:\\Qt".
Proof.
  apply encode_basestring_ascii_injective. discriminate.
Defined.

(** X13. On every run, the line of [windows] carries the matrix of the two
    jobs of the catalog, and the [QT_BASE_MIRROR] of each is one of the
    three mirrors. *)
Theorem script_mirrors (e : nat -> nat) :
  exists d,
    lines_of (stdout (run_script e).2) !! 1
      = Some (set_variable "windows" (Json.dumps (Json.of_matrix d))) /\
    length d = 2 /\
    Forall (fun entry =>
              exists m, m ∈ MIRRORS /\
                OrderedDict.get entry.2 "QT_BASE_MIRROR" = Some m) d.
Proof.
  unfold run_script.
  destruct (script_run [] [] e) as (m1 & m2 & d & H1 & H2 & Hd & Hrun).
  destruct (mirror_choice_ok e 0) as (m1' & H1' & Hin1).
  destruct (mirror_choice_ok e 1) as (m2' & H2' & Hin2).
  rewrite H1 in H1'. injection H1' as <-.
  rewrite H2 in H2'. injection H2' as <-.
  exists d. split; [|split].
  - rewrite Hrun. rewrite (script_lines d); reflexivity.
  - destruct (windows_matrix_entries m1 m2) as (d' & Hd' & Hall & _).
    rewrite Hd in Hd'. injection Hd' as <-.
    by rewrite <- (Forall2_length _ _ _ Hall).
  - destruct (windows_matrix_entries m1 m2) as (d' & Hd' & Hall & _).
    rewrite Hd in Hd'. injection Hd' as <-.
    assert (forall m : string, m ∈ MIRRORS -> Py.or_else (Some m) "" = m) as Hor.
    { intros m Hm. unfold MIRRORS in Hm.
      repeat (apply elem_of_cons in Hm as [->|Hm]; [reflexivity|]).
      by apply elem_of_nil in Hm. }
    cbn [Py.product windows_desktop_jobs flat_map map app python_versions] in Hall.
    inversion Hall as [|p1 e1 ps1 d1 [_ Hv1] Hall1]; subst.
    inversion Hall1 as [|p2 e2 ps2 d2 [_ Hv2] Hall2]; subst.
    inversion Hall2; subst.
    cbn [fst snd] in Hv1, Hv2.
    apply variables_inv in Hv1 as (? & ? & ? & ? & _ & _ & Hv1).
    apply variables_inv in Hv2 as (? & ? & ? & ? & _ & _ & Hv2).
    constructor; [|constructor; [|constructor]].
    + exists m1. split; [exact Hin1|]. rewrite Hv1.
      cbn [OrderedDict.get String.eqb Ascii.eqb Bool.eqb].
      cbn [mirror BuildJob_init with_mirror kw_mirror]. by rewrite (Hor m1 Hin1).
    + exists m2. split; [exact Hin2|]. rewrite Hv2.
      cbn [OrderedDict.get String.eqb Ascii.eqb Bool.eqb].
      cbn [mirror BuildJob_init with_mirror kw_mirror]. by rewrite (Hor m2 Hin2).
Qed.

(** ** The key *)

(** X14. The key does not tell a module list from a list of sub-archives:
    a job with the one and not the other, and the same job with the other
    instead, have the same key. *)
Theorem matrix_key_module_or_subarchives
    (command qt_version host target arch archdir : string) (kw : Kwargs)
    (names : string) :
  kw_module kw = None -> kw_subarchives kw = None ->
  matrix_key (BuildJob_init command qt_version host target arch archdir
                (with_module names kw))
  = matrix_key (BuildJob_init command qt_version host target arch archdir
                  (with_subarchives names kw)).
Proof.
  intros Hm Hs. unfold matrix_key. cbn. rewrite Hm, Hs.
  by destruct names.
Qed.

Lemma matrix_key_module_or_subarchives_witness :
  matrix_key (desktop_job "6.5.0" (with_module "qtcharts" defaults))
  = matrix_key (desktop_job "6.5.0" (with_subarchives "qtcharts" defaults)).
Proof.
  apply (matrix_key_module_or_subarchives "install-qt" "6.5.0" "windows"
           "desktop" "win64_msvc2015_64" "msvc2015_64" defaults "qtcharts");
    reflexivity.
Defined.

Lemma truthy_blank_as_absent (o : option string) :
  Py.truthy (blank_as_absent o) = Py.truthy o.
Proof. by destruct o as [[|c s]|]. Qed.

Lemma or_else_blank_as_absent (o : option string) (d : string) :
  Py.or_else (blank_as_absent o) d = Py.or_else o d.
Proof. by destruct o as [[|c s]|]. Qed.

(** X15. An optional text given as the empty string is handled as an absent
    one: the key and the variables of a job do not change when every empty
    optional text ([module], [mirror], [subarchives], [spec], [output_dir],
    [check_output_cmd], [autodesk_arch_folder]) is replaced by [None]. *)
Theorem empty_text_is_absent (j : BuildJob) (pv : string) :
  matrix_key (without_blanks j) = matrix_key j /\
  variables (without_blanks j) pv = variables j pv.
Proof.
  split.
  - unfold matrix_key. cbn [without_blanks command qt_version arch target spec
                            module subarchives output_dir].
    by rewrite !truthy_blank_as_absent, !or_else_blank_as_absent.
  - unfold variables, win_qt_bindir, win_autodesk_qt_bindir, qt_bindir,
      autodesk_qt_bindir, out_dir, version_dir, mingw_folder.
    cbn [without_blanks command qt_version host target arch archdir module
         mirror subarchives mingw_variant is_autodesktop list_options
         tool_options spec output_dir check_output_cmd emsdk_version
         autodesk_arch_folder].
    by rewrite !or_else_blank_as_absent.
Qed.

(** ** Examples *)

Example str_split_at : Py.str_split "@"%char "a@b@" = ["a"; "b"; ""].
Proof. reflexivity. Qed.

Example encode_backslash :
  Json.encode_basestring_ascii "a\b" = Json.quote +:+ "a\\b" +:+ Json.quote.
Proof. reflexivity. Qed.

Example mingw_folder_malformed :
  mingw_folder (mingw_job "win32_mingw530x") = Py.Raise Py.TypeError.
Proof. reflexivity. Qed.

(** The key does not hold the interpreter version: with two versions the
    entries of a job fall on one key, and the later one stays. *)
Example matrix_two_versions_collide :
  exists d,
    matrix_dictionary (windows_desktop_jobs "" "") ["3.8"; "3.9"] = Py.Ok d /\
    length d = 2 /\
    Forall (fun entry => OrderedDict.get entry.2 "PYTHON_VERSION" = Some "3.9") d.
Proof.
  eexists. split; [vm_compute; reflexivity|].
  split; [reflexivity|]. repeat constructor.
Qed.

(** A job with the tool options of the catalog gets them as its six tool
    variables. *)
Example tool_variables_of_catalog :
  exists vars,
    variables (desktop_job "5.11.3" (with_tool_options catalog_tool_options defaults))
      "3.9" = Py.Ok vars /\
    map (OrderedDict.get vars) tool_variable_names =
      [Some "tools_qtcreator qt.tools.qtcreator";
       Some "ls ./Tools/QtCreator/bin/";
       Some "./Tools/QtCreator/bin/qbs --version";
       Some "tools_ifw";
       Some "ls ./Tools/QtInstallerFramework/*/bin/";
       Some "./Tools/QtInstallerFramework/*/bin/archivegen --version"].
Proof. eexists. split; vm_compute; reflexivity. Qed.
